(** * Project-management backend: status rule, partial updates and metrics

    A shallow embedding of [backend/server.py].  The MongoDB collections are
    lists of documents in insertion order; a handler is a function of the
    world (the four collections, the number of clock reads and of uuid draws
    made so far) that returns either a failure or a value, together with the
    world it leaves behind.

    Conventions of the embedding:
    - a datetime is an integer number of microseconds since the epoch (UTC),
      the resolution of Python's [datetime]; the ISO string stored in MongoDB
      and the datetime it parses back to are identified;
    - [datetime.now(timezone.utc)] is one read of the clock: the [k]-th read of
      a run returns [clock k], whatever function [clock] is;
    - [uuid.uuid4()] is one draw from [uuid4];
    - Python floats are modelled by exact rationals ([Q]), and [round(x, 2)]
      by rounding the exact value half-to-even at two decimals. *)

From Stdlib Require Import List String ZArith QArith Qround Bool Lia.
Import ListNotations.
Open Scope string_scope.
Open Scope list_scope.
Open Scope Z_scope.

(** ** Enums *)

Inductive TaskStatus := TODO | IN_PROGRESS | IN_REVIEW | DONE.
Inductive TaskPriority := LOW | MEDIUM | HIGH | CRITICAL.

Definition TaskStatus_eqb (a b : TaskStatus) : bool :=
  match a, b with
  | TODO, TODO | IN_PROGRESS, IN_PROGRESS | IN_REVIEW, IN_REVIEW | DONE, DONE => true
  | _, _ => false
  end.

Definition timestamp := Z.

(** ** Models (the pydantic classes and the stored documents) *)

Module User.
Record t := mk
  { id : string; name : string; email : string; avatar_color : string;
    created_at : timestamp }.
End User.

Module UserUpdate.
Record t := mk
  { name : option string; email : option string; avatar_color : option string }.
End UserUpdate.

Module Project.
Record t := mk
  { id : string; name : string; description : string; owner_id : string;
    created_at : timestamp; updated_at : timestamp }.
End Project.

Module ProjectUpdate.
Record t := mk { name : option string; description : option string }.
End ProjectUpdate.

(** A stored task.  [created_at] and [completed_at] are the two keys the
    metrics read with [task.get(...)], so a missing or null value is [None]. *)
Module Task.
Record t := mk
  { id : string; title : string; description : string; project_id : string;
    assigned_to : option string; status : TaskStatus; priority : TaskPriority;
    created_at : option timestamp; updated_at : timestamp;
    completed_at : option timestamp }.
End Task.

(** [TaskCreate] after pydantic has parsed the body: an omitted [priority] has
    already been replaced by its default, an explicit null is [None]. *)
Module TaskCreate.
Record t := mk
  { title : string; description : string; project_id : string;
    assigned_to : option string; priority : option TaskPriority }.
End TaskCreate.

Module TaskUpdate.
Record t := mk
  { title : option string; description : option string;
    assigned_to : option string; status : option TaskStatus;
    priority : option TaskPriority }.
End TaskUpdate.

Module TaskStatusUpdate.
Record t := mk { status : TaskStatus }.
End TaskStatusUpdate.

Module Comment.
Record t := mk
  { id : string; task_id : string; user_id : string; text : string;
    created_at : timestamp }.
End Comment.

Module ProjectMetrics.
Record t := mk
  { total_tasks : nat; completed_tasks : nat; in_progress_tasks : nat;
    todo_tasks : nat; average_completion_time_days : option Q;
    completion_rate : Q }.
End ProjectMetrics.

Module OverviewMetrics.
Record t := mk
  { total_projects : nat; total_tasks : nat; total_users : nat;
    completed_tasks : nat; average_completion_time_days : option Q }.
End OverviewMetrics.

(** ** The JSON body of POST /tasks, before pydantic *)

Inductive JsonField (A : Type) := Absent | Null | Value (a : A).
Arguments Absent {A}.
Arguments Null {A}.
Arguments Value {A} a.

Module TaskCreateBody.
Record t := mk
  { title : string; description : string; project_id : string;
    assigned_to : JsonField string; priority : JsonField TaskPriority }.
End TaskCreateBody.

(** [assigned_to: Optional[str] = None] and
    [priority: Optional[TaskPriority] = TaskPriority.MEDIUM]. *)
Definition parse_TaskCreate (b : TaskCreateBody.t) : TaskCreate.t :=
  TaskCreate.mk (TaskCreateBody.title b) (TaskCreateBody.description b)
    (TaskCreateBody.project_id b)
    (match TaskCreateBody.assigned_to b with
     | Value u => Some u
     | Absent | Null => None
     end)
    (match TaskCreateBody.priority b with
     | Absent => Some MEDIUM
     | Null => None
     | Value p => Some p
     end).

(** ** The [$set] documents built by the update handlers ([update_data]) *)

Module UserSet.
Record t := mk
  { name : option string; email : option string; avatar_color : option string }.
End UserSet.

Module ProjectSet.
Record t := mk
  { name : option string; description : option string;
    updated_at : option timestamp }.
End ProjectSet.

(** A key that is absent from the dict is [None]; [completed_at] is the one
    key whose value may itself be null. *)
Module TaskSet.
Record t := mk
  { title : option string; description : option string;
    assigned_to : option string; status : option TaskStatus;
    priority : option TaskPriority; updated_at : option timestamp;
    completed_at : option (option timestamp) }.
End TaskSet.

Definition or_keep {A : Type} (new : option A) (old : A) : A :=
  match new with Some v => v | None => old end.

Definition or_keep_opt {A : Type} (new : option A) (old : option A) : option A :=
  match new with Some v => Some v | None => old end.

(** [{k: v for k, v in user_data.model_dump().items() if v is not None}] *)
Definition user_update_data (d : UserUpdate.t) : UserSet.t :=
  UserSet.mk (UserUpdate.name d) (UserUpdate.email d) (UserUpdate.avatar_color d).

Definition project_update_data (d : ProjectUpdate.t) : ProjectSet.t :=
  ProjectSet.mk (ProjectUpdate.name d) (ProjectUpdate.description d) None.

Definition task_update_data (d : TaskUpdate.t) : TaskSet.t :=
  TaskSet.mk (TaskUpdate.title d) (TaskUpdate.description d)
    (TaskUpdate.assigned_to d) (TaskUpdate.status d) (TaskUpdate.priority d)
    None None.

Definition is_some {A : Type} (o : option A) : bool :=
  match o with Some _ => true | None => false end.

(** Truth value of the dict: it has at least one key. *)
Definition user_set_nonempty (u : UserSet.t) : bool :=
  is_some (UserSet.name u) || is_some (UserSet.email u)
  || is_some (UserSet.avatar_color u).

Definition project_set_nonempty (u : ProjectSet.t) : bool :=
  is_some (ProjectSet.name u) || is_some (ProjectSet.description u)
  || is_some (ProjectSet.updated_at u).

Definition task_set_nonempty (u : TaskSet.t) : bool :=
  is_some (TaskSet.title u) || is_some (TaskSet.description u)
  || is_some (TaskSet.assigned_to u) || is_some (TaskSet.status u)
  || is_some (TaskSet.priority u) || is_some (TaskSet.updated_at u)
  || is_some (TaskSet.completed_at u).

(** [dict.update] on the loaded document, and [$set] on the stored one. *)
Definition user_set (u : UserSet.t) (d : User.t) : User.t :=
  User.mk (User.id d) (or_keep (UserSet.name u) (User.name d))
    (or_keep (UserSet.email u) (User.email d))
    (or_keep (UserSet.avatar_color u) (User.avatar_color d))
    (User.created_at d).

Definition project_set (u : ProjectSet.t) (d : Project.t) : Project.t :=
  Project.mk (Project.id d) (or_keep (ProjectSet.name u) (Project.name d))
    (or_keep (ProjectSet.description u) (Project.description d))
    (Project.owner_id d) (Project.created_at d)
    (or_keep (ProjectSet.updated_at u) (Project.updated_at d)).

Definition task_set (u : TaskSet.t) (d : Task.t) : Task.t :=
  Task.mk (Task.id d) (or_keep (TaskSet.title u) (Task.title d))
    (or_keep (TaskSet.description u) (Task.description d))
    (Task.project_id d)
    (or_keep_opt (TaskSet.assigned_to u) (Task.assigned_to d))
    (or_keep (TaskSet.status u) (Task.status d))
    (or_keep (TaskSet.priority u) (Task.priority d))
    (Task.created_at d)
    (or_keep (TaskSet.updated_at u) (Task.updated_at d))
    (or_keep (TaskSet.completed_at u) (Task.completed_at d)).

Definition with_updated_at (ts : timestamp) (u : TaskSet.t) : TaskSet.t :=
  TaskSet.mk (TaskSet.title u) (TaskSet.description u) (TaskSet.assigned_to u)
    (TaskSet.status u) (TaskSet.priority u) (Some ts) (TaskSet.completed_at u).

Definition with_completed_at (c : option timestamp) (u : TaskSet.t) : TaskSet.t :=
  TaskSet.mk (TaskSet.title u) (TaskSet.description u) (TaskSet.assigned_to u)
    (TaskSet.status u) (TaskSet.priority u) (TaskSet.updated_at u) (Some c).

(** ** The entity store *)

Record World := mkWorld
  { db_users : list User.t; db_projects : list Project.t;
    db_tasks : list Task.t; db_comments : list Comment.t;
    clock_reads : nat; uuid_draws : nat }.

(** [find_one(filter)]: the first matching document. *)
Definition find_one {A : Type} (matches : A -> bool) (coll : list A) : option A :=
  List.find matches coll.

(** [find(filter).to_list(length)]: the first [length] matching documents. *)
Definition find_to_list {A : Type} (matches : A -> bool) (length : nat)
    (coll : list A) : list A :=
  firstn length (filter matches coll).

(** [update_one(filter, {"$set": ...})]: the first matching document only. *)
Fixpoint update_one {A : Type} (matches : A -> bool) (set : A -> A)
    (coll : list A) : list A :=
  match coll with
  | [] => []
  | d :: rest =>
      if matches d then set d :: rest else d :: update_one matches set rest
  end.

Definition count_documents {A : Type} (coll : list A) : nat := List.length coll.

Definition set_users (us : list User.t) (w : World) : World :=
  mkWorld us (db_projects w) (db_tasks w) (db_comments w)
    (clock_reads w) (uuid_draws w).

Definition set_projects (ps : list Project.t) (w : World) : World :=
  mkWorld (db_users w) ps (db_tasks w) (db_comments w)
    (clock_reads w) (uuid_draws w).

Definition set_tasks (ts : list Task.t) (w : World) : World :=
  mkWorld (db_users w) (db_projects w) ts (db_comments w)
    (clock_reads w) (uuid_draws w).

(** ** Handlers: failure or value, and the world left behind *)

Inductive Failure :=
| HTTPException (status_code : Z) (detail : string)
| ValidationError.

Definition Handler (A : Type) : Type := World -> (Failure + A) * World.

Definition ret {A : Type} (a : A) : Handler A := fun w => (inr a, w).

Definition raise {A : Type} (e : Failure) : Handler A := fun w => (inl e, w).

Definition bind {A B : Type} (m : Handler A) (k : A -> Handler B) : Handler B :=
  fun w =>
    match m w with
    | (inl e, w') => (inl e, w')
    | (inr a, w') => k a w'
    end.

Notation "x <- m ;; k" := (bind m (fun x => k))
  (at level 61, m at next level, right associativity).
Notation "m ;;; k" := (bind m (fun _ => k))
  (at level 61, right associativity).

Definition gets {A : Type} (f : World -> A) : Handler A := fun w => (inr (f w), w).

Definition modify (f : World -> World) : Handler unit := fun w => (inr tt, f w).

Definition has_user_id (i : string) (d : User.t) : bool := String.eqb (User.id d) i.
Definition has_project_id (i : string) (d : Project.t) : bool :=
  String.eqb (Project.id d) i.
Definition has_task_id (i : string) (d : Task.t) : bool := String.eqb (Task.id d) i.
Definition in_project (i : string) (d : Task.t) : bool :=
  String.eqb (Task.project_id d) i.
Definition has_status (s : TaskStatus) (d : Task.t) : bool :=
  TaskStatus_eqb (Task.status d) s.

(** Truth value of a string: non-empty. *)
Definition str_truthy (s : string) : bool :=
  match s with EmptyString => false | _ => true end.

Section Handlers.

Variable clock : nat -> timestamp.
Variable uuid4 : nat -> string.

(** [datetime.now(timezone.utc)] *)
Definition now : Handler timestamp :=
  fun w =>
    (inr (clock (clock_reads w)),
     mkWorld (db_users w) (db_projects w) (db_tasks w) (db_comments w)
       (S (clock_reads w)) (uuid_draws w)).

(** [str(uuid.uuid4())] *)
Definition new_uuid : Handler string :=
  fun w =>
    (inr (uuid4 (uuid_draws w)),
     mkWorld (db_users w) (db_projects w) (db_tasks w) (db_comments w)
       (clock_reads w) (S (uuid_draws w))).

(** PUT /users/{user_id} *)
Definition update_user (user_id : string) (user_data : UserUpdate.t)
  : Handler User.t :=
  user <- gets (fun w => find_one (has_user_id user_id) (db_users w)) ;;
  match user with
  | None => raise (HTTPException 404 "User not found")
  | Some user =>
      let update_data := user_update_data user_data in
      if user_set_nonempty update_data then
        modify (fun w => set_users
                 (update_one (has_user_id user_id) (user_set update_data)
                    (db_users w)) w) ;;;
        ret (user_set update_data user)
      else ret user
  end.

(** PUT /projects/{project_id} *)
Definition update_project (project_id : string) (project_data : ProjectUpdate.t)
  : Handler Project.t :=
  project <- gets (fun w => find_one (has_project_id project_id) (db_projects w)) ;;
  match project with
  | None => raise (HTTPException 404 "Project not found")
  | Some project =>
      let update_data := project_update_data project_data in
      if project_set_nonempty update_data then
        ts <- now ;;
        let update_data :=
          ProjectSet.mk (ProjectSet.name update_data)
            (ProjectSet.description update_data) (Some ts) in
        modify (fun w => set_projects
                 (update_one (has_project_id project_id)
                    (project_set update_data) (db_projects w)) w) ;;;
        ret (project_set update_data project)
      else ret project
  end.

(** PUT /tasks/{task_id} *)
Definition update_task (task_id : string) (task_data : TaskUpdate.t)
  : Handler Task.t :=
  task <- gets (fun w => find_one (has_task_id task_id) (db_tasks w)) ;;
  match task with
  | None => raise (HTTPException 404 "Task not found")
  | Some task =>
      let update_data := task_update_data task_data in
      if task_set_nonempty update_data then
        ts <- now ;;
        let update_data := with_updated_at ts update_data in
        update_data <-
          match TaskSet.status update_data with
          | Some DONE =>
              done_ts <- now ;;
              ret (with_completed_at (Some done_ts) update_data)
          | Some _ => ret (with_completed_at None update_data)
          | None => ret update_data
          end ;;
        modify (fun w => set_tasks
                 (update_one (has_task_id task_id) (task_set update_data)
                    (db_tasks w)) w) ;;;
        ret (task_set update_data task)
      else ret task
  end.

(** PATCH /tasks/{task_id}/status *)
Definition update_task_status (task_id : string)
    (status_data : TaskStatusUpdate.t) : Handler Task.t :=
  task <- gets (fun w => find_one (has_task_id task_id) (db_tasks w)) ;;
  match task with
  | None => raise (HTTPException 404 "Task not found")
  | Some task =>
      ts <- now ;;
      let update_data :=
        TaskSet.mk None None None (Some (TaskStatusUpdate.status status_data))
          None (Some ts) None in
      update_data <-
        match TaskStatusUpdate.status status_data with
        | DONE =>
            done_ts <- now ;;
            ret (with_completed_at (Some done_ts) update_data)
        | _ => ret (with_completed_at None update_data)
        end ;;
      modify (fun w => set_tasks
               (update_one (has_task_id task_id) (task_set update_data)
                  (db_tasks w)) w) ;;;
      ret (task_set update_data task)
  end.

(** POST /tasks.  Building the [Task] from the dumped body runs the default
    factories in field order: [id], then [created_at], then [updated_at];
    a null [priority] does not validate as a [TaskPriority] (the draws and
    reads a failed construction may have made are not counted). *)
Definition create_task (task_data : TaskCreate.t) : Handler Task.t :=
  project <- gets (fun w => find_one (has_project_id (TaskCreate.project_id task_data))
                              (db_projects w)) ;;
  match project with
  | None => raise (HTTPException 404 "Project not found")
  | Some _ =>
      match
        (match TaskCreate.assigned_to task_data with
         | Some u => if str_truthy u then Some u else None
         | None => None
         end)
      with
      | Some u =>
          user <- gets (fun w => find_one (has_user_id u) (db_users w)) ;;
          match user with
          | None => raise (HTTPException 404 "Assigned user not found")
          | Some _ => ret tt
          end
      | None => ret tt
      end ;;;
      match TaskCreate.priority task_data with
      | None => raise ValidationError
      | Some priority =>
          id <- new_uuid ;;
          created_at <- now ;;
          updated_at <- now ;;
          let task :=
            Task.mk id (TaskCreate.title task_data)
              (TaskCreate.description task_data)
              (TaskCreate.project_id task_data)
              (TaskCreate.assigned_to task_data) TODO priority
              (Some created_at) updated_at None in
          modify (fun w => set_tasks (db_tasks w ++ [task]) w) ;;;
          ret task
      end
  end.

End Handlers.

(** ** Metrics engine *)

Definition nat_Q (n : nat) : Q := inject_Z (Z.of_nat n).

(** [delta.total_seconds() / 86400], with [delta = completed - created]. *)
Definition elapsed_days (created completed : timestamp) : Q :=
  (inject_Z (completed - created) / inject_Z 1000000 / inject_Z 86400)%Q.

(** The loop that fills [completion_times]: a task contributes when both
    [task.get('completed_at')] and [task.get('created_at')] are truthy. *)
Fixpoint completion_times (tasks : list Task.t) : list Q :=
  match tasks with
  | [] => []
  | task :: rest =>
      match Task.completed_at task, Task.created_at task with
      | Some completed, Some created =>
          elapsed_days created completed :: completion_times rest
      | _, _ => completion_times rest
      end
  end.

(** [sum(xs)] *)
Definition sum (xs : list Q) : Q := fold_left Qplus xs 0%Q.

(** [sum(completion_times) / len(completion_times) if completion_times else None] *)
Definition avg_completion_time (times : list Q) : option Q :=
  match times with
  | [] => None
  | _ :: _ => Some (sum times / nat_Q (List.length times))%Q
  end.

(** Truth value of a float: it is not zero. *)
Definition float_truthy (x : Q) : bool := negb (Qnum x =? 0).

(** Nearest integer, ties to the even one. *)
Definition round_half_even (x : Q) : Z :=
  let n := Qnum x in
  let d := Zpos (Qden x) in
  let k := n / d in
  match (2 * (n mod d) ?= d) with
  | Lt => k
  | Gt => k + 1
  | Eq => if Z.even k then k else k + 1
  end.

(** [round(x, ndigits)] *)
Definition round (x : Q) (ndigits : nat) : Q :=
  let p := inject_Z (10 ^ Z.of_nat ndigits) in
  (inject_Z (round_half_even (x * p)) / p)%Q.

(** [round(avg_completion_time, 2) if avg_completion_time else None] *)
Definition rounded_average (avg : option Q) : option Q :=
  match avg with
  | Some a => if float_truthy a then Some (round a 2) else None
  | None => None
  end.

(** [(completed_tasks / total_tasks * 100) if total_tasks > 0 else 0] *)
Definition completion_rate_of (completed_tasks total_tasks : nat) : Q :=
  if (0 <? total_tasks)%nat
  then (nat_Q completed_tasks / nat_Q total_tasks * inject_Z 100)%Q
  else 0%Q.

(** GET /metrics/project/{project_id} *)
Definition get_project_metrics (project_id : string) : Handler ProjectMetrics.t :=
  project <- gets (fun w => find_one (has_project_id project_id) (db_projects w)) ;;
  match project with
  | None => raise (HTTPException 404 "Project not found")
  | Some _ =>
      tasks <- gets (fun w => find_to_list (in_project project_id) 1000 (db_tasks w)) ;;
      let total_tasks := List.length tasks in
      let completed_tasks := List.length (filter (has_status DONE) tasks) in
      let in_progress_tasks := List.length (filter (has_status IN_PROGRESS) tasks) in
      let todo_tasks := List.length (filter (has_status TODO) tasks) in
      let avg := avg_completion_time (completion_times tasks) in
      let completion_rate := completion_rate_of completed_tasks total_tasks in
      ret (ProjectMetrics.mk total_tasks completed_tasks in_progress_tasks
             todo_tasks (rounded_average avg) (round completion_rate 2))
  end.

(** GET /metrics/overview *)
Definition get_overview_metrics : Handler OverviewMetrics.t :=
  total_projects <- gets (fun w => count_documents (db_projects w)) ;;
  total_tasks <- gets (fun w => count_documents (db_tasks w)) ;;
  total_users <- gets (fun w => count_documents (db_users w)) ;;
  completed_tasks_list <-
    gets (fun w => find_to_list (has_status DONE) 1000 (db_tasks w)) ;;
  let completed_tasks := List.length completed_tasks_list in
  let avg := avg_completion_time (completion_times completed_tasks_list) in
  ret (OverviewMetrics.mk total_projects total_tasks total_users
         completed_tasks (rounded_average avg)).

(** ** Sample data used by the examples *)

Definition day : Z := 86400 * 1000000.

Definition sample_clock (k : nat) : timestamp := 1700000000000000 + Z.of_nat k.

Definition sample_uuid4 (k : nat) : string :=
  match k with
  | O => "uuid-0"
  | 1%nat => "uuid-1"
  | _ => "uuid-n"
  end.

Definition sample_user : User.t := User.mk "u1" "Ada" "ada@example.org" "#3b82f6" 10.

Definition sample_project : Project.t := Project.mk "p1" "Alpha" "first" "u1" 20 20.

Definition sample_task (id : string) (s : TaskStatus) (created completed : option timestamp)
  : Task.t :=
  Task.mk id "title" "text" "p1" (Some "u1") s MEDIUM created 30 completed.

Definition world_of (tasks : list Task.t) : World :=
  mkWorld [sample_user] [sample_project] tasks [] 0 0.

(** ** Vocabulary of the statements *)

(** The value a handler returns, if it returns one. *)
Definition value {A : Type} (r : (Failure + A) * World) : option A :=
  match fst r with
  | inr a => Some a
  | inl _ => None
  end.




Definition TaskStatus_eq_dec (a b : TaskStatus) : {a = b} + {a <> b}.
Proof. decide equality. Defined.

(** The tasks GET /metrics/project/{project_id} aggregates over. *)
Definition project_tasks (project_id : string) (w : World) : list Task.t :=
  find_to_list (in_project project_id) 1000 (db_tasks w).

(** The tasks GET /metrics/overview averages over. *)
Definition overview_tasks (w : World) : list Task.t :=
  find_to_list (has_status DONE) 1000 (db_tasks w).

(** A project with 1001 tasks: a backlog of 1000 TODO tasks and, stored last,
    one task that is DONE. *)
Definition backlog : list Task.t :=
  repeat (sample_task "todo" TODO (Some 0) None) 1000
  ++ [sample_task "late" DONE (Some 0) (Some day)].

(** A store with 1001 tasks that are DONE. *)
Definition all_done : list Task.t :=
  repeat (sample_task "done" DONE (Some 0) (Some day)) 1001.


Definition finished : Task.t := sample_task "t1" DONE (Some 0) (Some 40).

(** ** The other handlers *)

Module UserCreate.
Record t := mk
  { name : string; email : string; avatar_color : option string }.
End UserCreate.

Module ProjectCreate.
Record t := mk { name : string; description : string; owner_id : string }.
End ProjectCreate.

Module CommentCreate.
Record t := mk { task_id : string; user_id : string; text : string }.
End CommentCreate.

(** [delete_one(filter)]: the first matching document is removed;
    the first component is [deleted_count]. *)
Fixpoint delete_one {A : Type} (matches : A -> bool) (coll : list A)
  : nat * list A :=
  match coll with
  | [] => (0%nat, [])
  | d :: rest =>
      if matches d then (1%nat, rest)
      else let (n, rest') := delete_one matches rest in (n, d :: rest')
  end.

(** [delete_many(filter)]: every matching document is removed. *)
Definition delete_many {A : Type} (matches : A -> bool) (coll : list A) : list A :=
  filter (fun d => negb (matches d)) coll.

Definition set_comments (cs : list Comment.t) (w : World) : World :=
  mkWorld (db_users w) (db_projects w) (db_tasks w) cs
    (clock_reads w) (uuid_draws w).

Definition has_comment_id (i : string) (d : Comment.t) : bool :=
  String.eqb (Comment.id d) i.
Definition on_task (i : string) (d : Comment.t) : bool :=
  String.eqb (Comment.task_id d) i.

(** A query parameter that is falsy (missing, or the empty string) adds no
    key to [filter_query]. *)
Definition truthy_param (p : option string) : option string :=
  match p with
  | Some v => if str_truthy v then Some v else None
  | None => None
  end.

(** The [filter_query] of GET /tasks, as the match it asks MongoDB for. *)
Definition tasks_filter (project_id assigned_to : option string)
    (status : option TaskStatus) (d : Task.t) : bool :=
  match truthy_param project_id with
  | Some p => String.eqb (Task.project_id d) p
  | None => true
  end
  && match truthy_param assigned_to with
     | Some a =>
         match Task.assigned_to d with
         | Some u => String.eqb u a
         | None => false
         end
     | None => true
     end
  && match status with
     | Some s => TaskStatus_eqb (Task.status d) s
     | None => true
     end.

(** The [filter_query] of GET /comments. *)
Definition comments_filter (task_id : option string) (d : Comment.t) : bool :=
  match truthy_param task_id with
  | Some i => String.eqb (Comment.task_id d) i
  | None => true
  end.

Section OtherHandlers.

Variable clock : nat -> timestamp.
Variable uuid4 : nat -> string.

(** POST /users.  A null [avatar_color] does not validate as a [str]. *)
Definition create_user (user_data : UserCreate.t) : Handler User.t :=
  match UserCreate.avatar_color user_data with
  | None => raise ValidationError
  | Some avatar_color =>
      id <- new_uuid uuid4 ;;
      created_at <- now clock ;;
      let user :=
        User.mk id (UserCreate.name user_data) (UserCreate.email user_data)
          avatar_color created_at in
      modify (fun w => set_users (db_users w ++ [user]) w) ;;;
      ret user
  end.

(** GET /users *)
Definition get_users : Handler (list User.t) :=
  gets (fun w => find_to_list (fun _ => true) 1000 (db_users w)).

(** GET /users/{user_id} *)
Definition get_user (user_id : string) : Handler User.t :=
  user <- gets (fun w => find_one (has_user_id user_id) (db_users w)) ;;
  match user with
  | None => raise (HTTPException 404 "User not found")
  | Some user => ret user
  end.

(** DELETE /users/{user_id} *)
Definition delete_user (user_id : string) : Handler string :=
  result <- (fun w =>
               let (n, us) := delete_one (has_user_id user_id) (db_users w) in
               (inr n, set_users us w)) ;;
  if (result =? 0)%nat then raise (HTTPException 404 "User not found")
  else ret "User deleted successfully".

(** POST /projects *)
Definition create_project (project_data : ProjectCreate.t) : Handler Project.t :=
  owner <- gets (fun w => find_one (has_user_id (ProjectCreate.owner_id project_data))
                            (db_users w)) ;;
  match owner with
  | None => raise (HTTPException 404 "Owner user not found")
  | Some _ =>
      id <- new_uuid uuid4 ;;
      created_at <- now clock ;;
      updated_at <- now clock ;;
      let project :=
        Project.mk id (ProjectCreate.name project_data)
          (ProjectCreate.description project_data)
          (ProjectCreate.owner_id project_data) created_at updated_at in
      modify (fun w => set_projects (db_projects w ++ [project]) w) ;;;
      ret project
  end.

(** GET /projects *)
Definition get_projects : Handler (list Project.t) :=
  gets (fun w => find_to_list (fun _ => true) 1000 (db_projects w)).

(** GET /projects/{project_id} *)
Definition get_project (project_id : string) : Handler Project.t :=
  project <- gets (fun w => find_one (has_project_id project_id) (db_projects w)) ;;
  match project with
  | None => raise (HTTPException 404 "Project not found")
  | Some project => ret project
  end.

(** DELETE /projects/{project_id} *)
Definition delete_project (project_id : string) : Handler string :=
  result <- (fun w =>
               let (n, ps) := delete_one (has_project_id project_id) (db_projects w) in
               (inr n, set_projects ps w)) ;;
  if (result =? 0)%nat then raise (HTTPException 404 "Project not found")
  else
    modify (fun w => set_tasks (delete_many (in_project project_id) (db_tasks w)) w) ;;;
    ret "Project deleted successfully".

(** GET /tasks?project_id&assigned_to&status *)
Definition get_tasks (project_id assigned_to : option string)
    (status : option TaskStatus) : Handler (list Task.t) :=
  gets (fun w => find_to_list (tasks_filter project_id assigned_to status) 1000
                   (db_tasks w)).

(** GET /tasks/{task_id} *)
Definition get_task (task_id : string) : Handler Task.t :=
  task <- gets (fun w => find_one (has_task_id task_id) (db_tasks w)) ;;
  match task with
  | None => raise (HTTPException 404 "Task not found")
  | Some task => ret task
  end.

(** DELETE /tasks/{task_id} *)
Definition delete_task (task_id : string) : Handler string :=
  result <- (fun w =>
               let (n, ts) := delete_one (has_task_id task_id) (db_tasks w) in
               (inr n, set_tasks ts w)) ;;
  if (result =? 0)%nat then raise (HTTPException 404 "Task not found")
  else
    modify (fun w => set_comments (delete_many (on_task task_id) (db_comments w)) w) ;;;
    ret "Task deleted successfully".

(** POST /comments *)
Definition create_comment (comment_data : CommentCreate.t) : Handler Comment.t :=
  task <- gets (fun w => find_one (has_task_id (CommentCreate.task_id comment_data))
                           (db_tasks w)) ;;
  match task with
  | None => raise (HTTPException 404 "Task not found")
  | Some _ =>
      user <- gets (fun w => find_one (has_user_id (CommentCreate.user_id comment_data))
                               (db_users w)) ;;
      match user with
      | None => raise (HTTPException 404 "User not found")
      | Some _ =>
          id <- new_uuid uuid4 ;;
          created_at <- now clock ;;
          let comment :=
            Comment.mk id (CommentCreate.task_id comment_data)
              (CommentCreate.user_id comment_data)
              (CommentCreate.text comment_data) created_at in
          modify (fun w => set_comments (db_comments w ++ [comment]) w) ;;;
          ret comment
      end
  end.

(** GET /comments?task_id *)
Definition get_comments (task_id : option string) : Handler (list Comment.t) :=
  gets (fun w => find_to_list (comments_filter task_id) 1000 (db_comments w)).

(** DELETE /comments/{comment_id} *)
Definition delete_comment (comment_id : string) : Handler string :=
  result <- (fun w =>
               let (n, cs) := delete_one (has_comment_id comment_id) (db_comments w) in
               (inr n, set_comments cs w)) ;;
  if (result =? 0)%nat then raise (HTTPException 404 "Comment not found")
  else ret "Comment deleted successfully".

End OtherHandlers.

(** The derived-timestamp invariant of a stored task: [completed_at] is
    present exactly when the status is DONE. *)
Definition completion_consistent (d : Task.t) : bool :=
  Bool.eqb (is_some (Task.completed_at d)) (has_status DONE d).

Definition sample_comment (id task_id : string) : Comment.t :=
  Comment.mk id task_id "u1" "note" 50.

(** A store with two projects, a task in each and a comment on each task. *)
Definition sample_store : World :=
  mkWorld [sample_user]
    [sample_project; Project.mk "p2" "Beta" "second" "u1" 21 21]
    [finished;
     Task.mk "t2" "other" "text" "p2" None TODO LOW (Some 5) 31 None]
    [sample_comment "c1" "t1"; sample_comment "c2" "t2"] 0 0.

(** The shape of every [$set] document the two task writers send: it carries
    a [completed_at] exactly when it carries a status, a timestamp for DONE
    and null for the other three. *)
Definition status_rule (u : TaskSet.t) : Prop :=
  match TaskSet.status u with
  | None => TaskSet.completed_at u = None
  | Some DONE => exists ts, TaskSet.completed_at u = Some (Some ts)
  | Some _ => TaskSet.completed_at u = Some None
  end.

(** * Properties *)

(** ** The store *)

Lemma find_one_None_iff {A : Type} (matches : A -> bool) (coll : list A) :
  find_one matches coll = None <-> forall d, In d coll -> matches d = false.
Proof.
  unfold find_one. split.
  - intros H d Hd. exact (find_none matches coll H d Hd).
  - induction coll as [|x rest IH]; intros H; simpl; [reflexivity|].
    rewrite (H x (or_introl eq_refl)). apply IH.
    intros d Hd. apply H. right. exact Hd.
Qed.

(** After [update_one], [find_one] with the same filter returns the updated
    document, provided the update leaves the filter's verdict alone. *)
Lemma find_one_update_one {A : Type} (matches : A -> bool) (set : A -> A)
    (coll : list A) (d : A) :
  (forall x, matches (set x) = matches x) ->
  find_one matches coll = Some d ->
  find_one matches (update_one matches set coll) = Some (set d).
Proof.
  unfold find_one. intros Hset.
  induction coll as [|x rest IH]; simpl; [discriminate|].
  destruct (matches x) eqn:Hx; simpl.
  - intros [= ->]. rewrite Hset, Hx. reflexivity.
  - rewrite Hx. exact IH.
Qed.


Lemma has_project_id_set (i : string) (u : ProjectSet.t) (d : Project.t) :
  has_project_id i (project_set u d) = has_project_id i d.
Proof. reflexivity. Qed.

Lemma has_task_id_set (i : string) (u : TaskSet.t) (d : Task.t) :
  has_task_id i (task_set u d) = has_task_id i d.
Proof. reflexivity. Qed.

(** ** Rounding *)

Lemma round_half_even_lower (x : Q) (m : Z) :
  (inject_Z m <= x)%Q -> m <= round_half_even x.
Proof.
  destruct x as [n d]. unfold Qle, round_half_even, inject_Z.
  cbn [Qnum Qden]. rewrite Z.mul_1_r. intros H.
  assert (Hk : m <= n / Z.pos d).
  { apply Z.div_le_lower_bound; lia. }
  destruct (2 * (n mod Z.pos d) ?= Z.pos d); [destruct (Z.even _)| |]; lia.
Qed.


(** [round(x, 2)] stays between any two bounds that are whole hundredths. *)
Lemma round_2_lower (x : Q) (m : Z) :
  (m # 100 <= x)%Q -> (m # 100 <= round x 2)%Q.
Proof.
  intros H. unfold round.
  change (inject_Z (10 ^ Z.of_nat 2)) with (inject_Z 100).
  assert (Hm : (inject_Z m <= x * inject_Z 100)%Q).
  { revert H. unfold Qle, Qmult, inject_Z. simpl. lia. }
  apply round_half_even_lower in Hm. revert Hm.
  generalize (round_half_even (x * inject_Z 100)). intros r Hr.
  unfold Qle, Qdiv, Qmult, Qinv, inject_Z. simpl. lia.
Qed.


(** ** Running a handler *)

Ltac run_handler :=
  unfold update_user, update_project, update_task, update_task_status,
    create_task, get_project_metrics, get_overview_metrics,
    bind, gets, modify, raise, ret, now, new_uuid;
  cbn [fst snd].

Lemma task_set_nonempty_status (task_data : TaskUpdate.t) :
  TaskUpdate.status task_data <> None ->
  task_set_nonempty (task_update_data task_data) = true.
Proof.
  destruct task_data as [ti de asg [s|] pr]; cbn; [intros _|congruence].
  unfold task_set_nonempty. cbn. rewrite !orb_true_r. reflexivity.
Qed.

(** The two status-writing handlers, once the task has been found. *)
Lemma update_task_found (clock : nat -> timestamp) (task_id : string)
    (task_data : TaskUpdate.t) (w : World) (task : Task.t) :
  find_one (has_task_id task_id) (db_tasks w) = Some task ->
  TaskUpdate.status task_data <> None ->
  let ts := clock (clock_reads w) in
  let done_ts := clock (S (clock_reads w)) in
  let update_data :=
    match TaskUpdate.status task_data with
    | Some DONE =>
        with_completed_at (Some done_ts)
          (with_updated_at ts (task_update_data task_data))
    | _ => with_completed_at None (with_updated_at ts (task_update_data task_data))
    end in
  let reads :=
    match TaskUpdate.status task_data with
    | Some DONE => S (S (clock_reads w))
    | _ => S (clock_reads w)
    end in
  update_task clock task_id task_data w =
  (inr (task_set update_data task),
   mkWorld (db_users w) (db_projects w)
     (update_one (has_task_id task_id) (task_set update_data) (db_tasks w))
     (db_comments w) reads (uuid_draws w)).
Proof.
  intros Hfind Hstatus. run_handler. rewrite Hfind.
  rewrite (task_set_nonempty_status task_data Hstatus).
  cbn [with_updated_at task_update_data TaskSet.status].
  destruct (TaskUpdate.status task_data) as [[]|]; [..|congruence]; reflexivity.
Qed.

Lemma update_task_status_found (clock : nat -> timestamp) (task_id : string)
    (s : TaskStatus) (w : World) (task : Task.t) :
  find_one (has_task_id task_id) (db_tasks w) = Some task ->
  let ts := clock (clock_reads w) in
  let done_ts := clock (S (clock_reads w)) in
  let update_data :=
    with_completed_at
      (match s with DONE => Some done_ts | _ => None end)
      (TaskSet.mk None None None (Some s) None (Some ts) None) in
  let reads :=
    match s with DONE => S (S (clock_reads w)) | _ => S (clock_reads w) end in
  update_task_status clock task_id (TaskStatusUpdate.mk s) w =
  (inr (task_set update_data task),
   mkWorld (db_users w) (db_projects w)
     (update_one (has_task_id task_id) (task_set update_data) (db_tasks w))
     (db_comments w) reads (uuid_draws w)).
Proof.
  intros Hfind. run_handler. rewrite Hfind. destruct s; reflexivity.
Qed.

(** ** Updates of a missing id *)

(** C9.  An update of a user, a project or a task (through PUT, or through
    PATCH .../status) whose id is not in the store fails with a 404
    [HTTPException] and leaves the world exactly as it was: no collection is
    written, and not even the clock is read. *)
Theorem update_of_missing_id_is_404_without_write
    (clock : nat -> timestamp) (w : World) (id : string) :
  (forall user_data,
      find_one (has_user_id id) (db_users w) = None ->
      update_user id user_data w = (inl (HTTPException 404 "User not found"), w))
  /\ (forall project_data,
      find_one (has_project_id id) (db_projects w) = None ->
      update_project clock id project_data w =
      (inl (HTTPException 404 "Project not found"), w))
  /\ (forall task_data,
      find_one (has_task_id id) (db_tasks w) = None ->
      update_task clock id task_data w =
      (inl (HTTPException 404 "Task not found"), w))
  /\ (forall status_data,
      find_one (has_task_id id) (db_tasks w) = None ->
      update_task_status clock id status_data w =
      (inl (HTTPException 404 "Task not found"), w)).
Proof.
  repeat split; intros data Hnone; run_handler; rewrite Hnone; reflexivity.
Qed.

(** ** The status transition rule *)

(** C4.  A status-affecting write on a stored task -- PATCH .../status, or PUT
    with a status in the body -- is never rejected, whatever the stored status
    and [completed_at] were: it returns the task, and the task persisted under
    that id has the requested status, [updated_at] equal to the first clock
    read of the call and [completed_at] equal to the second clock read of the
    call when the requested status is DONE, null otherwise. *)
Theorem status_write_sets_or_clears_completed_at
    (clock : nat -> timestamp) (w : World) (id : string) (task : Task.t)
    (s : TaskStatus) (r : (Failure + Task.t) * World) :
  find_one (has_task_id id) (db_tasks w) = Some task ->
  (r = update_task_status clock id (TaskStatusUpdate.mk s) w
   \/ exists task_data,
        TaskUpdate.status task_data = Some s
        /\ r = update_task clock id task_data w) ->
  exists task',
    fst r = inr task'
    /\ find_one (has_task_id id) (db_tasks (snd r)) = Some task'
    /\ Task.status task' = s
    /\ Task.updated_at task' = clock (clock_reads w)
    /\ Task.completed_at task' =
       match s with
       | DONE => Some (clock (S (clock_reads w)))
       | _ => None
       end.
Proof.
  intros Hfind [-> | (task_data & Hs & ->)].
  - rewrite (update_task_status_found clock id s w task Hfind).
    eexists. split; [reflexivity|]. cbn [snd db_tasks]. split.
    + apply find_one_update_one; [apply has_task_id_set | exact Hfind].
    + destruct s; repeat split; reflexivity.
  - rewrite (update_task_found clock id task_data w task Hfind)
      by (rewrite Hs; discriminate).
    eexists. split; [reflexivity|]. cbn [snd db_tasks]. split.
    + apply find_one_update_one; [apply has_task_id_set | exact Hfind].
    + rewrite Hs. destruct task_data as [ti de asg st pr]. cbn in Hs. subst st.
      destruct s; repeat split; reflexivity.
Qed.


(** ** Partial updates *)





(** ** The metrics engine *)

Lemma get_project_metrics_inv (project_id : string) (w : World)
    (m : ProjectMetrics.t) :
  fst (get_project_metrics project_id w) = inr m ->
  let tasks := project_tasks project_id w in
  find_one (has_project_id project_id) (db_projects w) <> None
  /\ m = ProjectMetrics.mk (List.length tasks)
           (List.length (filter (has_status DONE) tasks))
           (List.length (filter (has_status IN_PROGRESS) tasks))
           (List.length (filter (has_status TODO) tasks))
           (rounded_average (avg_completion_time (completion_times tasks)))
           (round (completion_rate_of
                     (List.length (filter (has_status DONE) tasks))
                     (List.length tasks)) 2).
Proof.
  run_handler.
  destruct (find_one (has_project_id project_id) (db_projects w)); cbn.
  - intros [= <-]. split; [discriminate | reflexivity].
  - discriminate.
Qed.

Lemma get_project_metrics_found (project_id : string) (w : World)
    (project : Project.t) :
  find_one (has_project_id project_id) (db_projects w) = Some project ->
  exists m, get_project_metrics project_id w = (inr m, w).
Proof.
  intros Hfind. run_handler. rewrite Hfind. eexists. reflexivity.
Qed.

Lemma get_overview_metrics_eq (w : World) :
  get_overview_metrics w =
  (inr (OverviewMetrics.mk (List.length (db_projects w))
          (List.length (db_tasks w)) (List.length (db_users w))
          (List.length (overview_tasks w))
          (rounded_average
             (avg_completion_time (completion_times (overview_tasks w))))),
   w).
Proof. reflexivity. Qed.


Lemma TaskStatus_eqb_eq (a b : TaskStatus) : TaskStatus_eqb a b = true <-> a = b.
Proof. destruct a, b; cbn; split; congruence. Qed.

Lemma filter_length_count (s : TaskStatus) (tasks : list Task.t) :
  List.length (filter (has_status s) tasks)
  = count_occ TaskStatus_eq_dec (map Task.status tasks) s.
Proof.
  induction tasks as [|t rest IH]; [reflexivity|]. cbn [filter map count_occ].
  unfold has_status at 1.
  destruct (TaskStatus_eq_dec (Task.status t) s) as [E|E].
  - rewrite (proj2 (TaskStatus_eqb_eq _ _) E).
    cbn [List.length]. rewrite IH. reflexivity.
  - destruct (TaskStatus_eqb (Task.status t) s) eqn:Hb; [|exact IH].
    apply TaskStatus_eqb_eq in Hb. contradiction.
Qed.

Lemma status_counts_partition (l : list TaskStatus) :
  (count_occ TaskStatus_eq_dec l TODO + count_occ TaskStatus_eq_dec l IN_PROGRESS
   + count_occ TaskStatus_eq_dec l DONE + count_occ TaskStatus_eq_dec l IN_REVIEW
   = List.length l)%nat.
Proof.
  induction l as [|s rest IH]; [reflexivity|].
  destruct s; cbn [count_occ List.length];
    repeat match goal with
      | |- context [TaskStatus_eq_dec ?a ?b] =>
          destruct (TaskStatus_eq_dec a b); try congruence
      end; lia.
Qed.

(** C7.  In the per-project metrics, [total_tasks] is the number of loaded
    tasks and [completed_tasks], [in_progress_tasks] and [todo_tasks] are the
    numbers of loaded tasks whose status is DONE, IN_PROGRESS and TODO; with
    the IN_REVIEW tasks these add up to [total_tasks], so the three named
    buckets never exceed it and each IN_REVIEW task is the gap. *)
Theorem status_buckets_count_loaded_tasks (project_id : string) (w : World)
    (m : ProjectMetrics.t) :
  fst (get_project_metrics project_id w) = inr m ->
  let statuses := map Task.status (project_tasks project_id w) in
  let count := count_occ TaskStatus_eq_dec statuses in
  ProjectMetrics.total_tasks m = List.length (project_tasks project_id w)
  /\ ProjectMetrics.completed_tasks m = count DONE
  /\ ProjectMetrics.in_progress_tasks m = count IN_PROGRESS
  /\ ProjectMetrics.todo_tasks m = count TODO
  /\ (ProjectMetrics.todo_tasks m + ProjectMetrics.in_progress_tasks m
      + ProjectMetrics.completed_tasks m + count IN_REVIEW
      = ProjectMetrics.total_tasks m)%nat
  /\ (ProjectMetrics.todo_tasks m + ProjectMetrics.in_progress_tasks m
      + ProjectMetrics.completed_tasks m <= ProjectMetrics.total_tasks m)%nat.
Proof.
  intros Hrun. destruct (get_project_metrics_inv _ _ _ Hrun) as [_ ->].
  cbv zeta.
  cbn [ProjectMetrics.total_tasks ProjectMetrics.completed_tasks
       ProjectMetrics.in_progress_tasks ProjectMetrics.todo_tasks].
  rewrite !filter_length_count.
  pose proof (status_counts_partition (map Task.status (project_tasks project_id w)))
    as Hsum.
  rewrite length_map in Hsum.
  repeat split; lia.
Qed.

(** *** Completion rate *)







(** *** Average completion time *)

Lemma sum_over_count_zero_iff (total : Q) (n : nat) :
  float_truthy (total / nat_Q (S n))%Q = false <-> (total == 0)%Q.
Proof.
  unfold float_truthy, nat_Q, Qdiv, Qmult, Qinv, inject_Z, Qeq.
  rewrite Nat2Z.inj_succ. cbn [Qnum Qden].
  destruct (Z.succ (Z.of_nat n)) eqn:E; try lia. cbn [Qnum Qden].
  rewrite negb_false_iff, Z.eqb_eq. lia.
Qed.

(** What the handlers report for a list of elapsed times: null when the list
    is empty and also when its sum is zero, the rounded mean otherwise. *)
Lemma rounded_average_null_iff (times : list Q) :
  rounded_average (avg_completion_time times) = None
  <-> times = [] \/ (sum times == 0)%Q.
Proof.
  destruct times as [|x rest]; cbn [avg_completion_time rounded_average].
  - split; [left; reflexivity | reflexivity].
  - cbn [List.length].
    destruct (float_truthy (sum (x :: rest) / nat_Q (S (List.length rest)))) eqn:Hz.
    + split; [discriminate|]. intros [H|H]; [discriminate|].
      apply (proj2 (sum_over_count_zero_iff _ (List.length rest))) in H.
      congruence.
    + split; [|reflexivity]. intros _. right.
      apply sum_over_count_zero_iff in Hz. exact Hz.
Qed.

Lemma rounded_average_mean (times : list Q) :
  times <> [] -> ~ (sum times == 0)%Q ->
  rounded_average (avg_completion_time times)
  = Some (round (sum times / nat_Q (List.length times)) 2).
Proof.
  intros Hne Hsum. destruct times as [|x rest]; [congruence|].
  cbn [avg_completion_time rounded_average List.length].
  destruct (float_truthy (sum (x :: rest) / nat_Q (S (List.length rest)))) eqn:Hz;
    [reflexivity|].
  apply sum_over_count_zero_iff in Hz. contradiction.
Qed.

(** C1, on the two inputs where the code departs from it.  A project whose
    only task was completed at the very instant it was created, and a project
    with one task completed a day after and one a day before its creation:
    in both the set of considered tasks is not empty and its mean elapsed time
    is 0 days, yet both metrics handlers report
    [average_completion_time_days] as null, because the rounded mean is
    returned under the test [if avg_completion_time], which a mean of 0.0
    fails. *)
Theorem zero_mean_completion_time_is_reported_as_null :
  let instant := world_of [sample_task "t1" DONE (Some 5) (Some 5)] in
  let skewed :=
    world_of [sample_task "t1" DONE (Some day) (Some (2 * day));
              sample_task "t2" DONE (Some day) (Some 0)] in
  completion_times (project_tasks "p1" instant) = [elapsed_days 5 5]
  /\ completion_times (overview_tasks instant) = [elapsed_days 5 5]
  /\ option_map ProjectMetrics.average_completion_time_days
       (value (get_project_metrics "p1" instant)) = Some None
  /\ option_map OverviewMetrics.average_completion_time_days
       (value (get_overview_metrics instant)) = Some None
  /\ List.length (completion_times (project_tasks "p1" skewed)) = 2%nat
  /\ option_map ProjectMetrics.average_completion_time_days
       (value (get_project_metrics "p1" skewed)) = Some None
  /\ option_map OverviewMetrics.average_completion_time_days
       (value (get_overview_metrics skewed)) = Some None.
Proof. vm_compute. repeat split; reflexivity. Qed.

(** *** The scan *)

(** C3, on the inputs where the code departs from it.  Both handlers read
    their tasks with [to_list(1000)].  For a project with 1001 tasks, the last
    of which is its only DONE one, the per-project metrics are those of the
    first 1000: [total_tasks] 1000, [completed_tasks] 0, a null average and a
    rate of 0.  For a store with 1001 DONE tasks the overview reports
    [total_tasks] 1001, counted by the store, and [completed_tasks] 1000. *)
Theorem metrics_aggregate_the_first_1000_tasks_only :
  List.length (filter (in_project "p1") backlog) = 1001%nat
  /\ List.length (filter (has_status DONE) (filter (in_project "p1") backlog)) = 1%nat
  /\ value (get_project_metrics "p1" (world_of backlog))
     = Some (ProjectMetrics.mk 1000 0 0 1000 None (round 0 2))
  /\ List.length (filter (has_status DONE) all_done) = 1001%nat
  /\ option_map OverviewMetrics.total_tasks
       (value (get_overview_metrics (world_of all_done))) = Some 1001%nat
  /\ option_map OverviewMetrics.completed_tasks
       (value (get_overview_metrics (world_of all_done))) = Some 1000%nat.
Proof.
  split; [vm_compute; reflexivity|]. split; [vm_compute; reflexivity|].
  split; [vm_compute; reflexivity|]. split; [vm_compute; reflexivity|].
  unfold value. rewrite get_overview_metrics_eq.
  cbn [fst option_map OverviewMetrics.total_tasks OverviewMetrics.completed_tasks].
  split; f_equal; vm_compute; reflexivity.
Qed.

(** *** Which tasks enter the average *)

Lemma completion_times_app (l1 l2 : list Task.t) :
  completion_times (l1 ++ l2) = completion_times l1 ++ completion_times l2.
Proof.
  induction l1 as [|t rest IH]; [reflexivity|]. cbn [app completion_times].
  destruct (Task.completed_at t), (Task.created_at t); rewrite IH; reflexivity.
Qed.


Lemma find_to_list_In {A : Type} (matches : A -> bool) (n : nat) (coll : list A)
    (d : A) :
  In d (find_to_list matches n coll) -> In d coll /\ matches d = true.
Proof.
  unfold find_to_list. intros H. apply filter_In.
  rewrite <- (firstn_skipn n (filter matches coll)).
  apply in_or_app. left. exact H.
Qed.



(** ** Task creation *)

Lemma create_task_inv (clock : nat -> timestamp) (uuid4 : nat -> string)
    (task_data : TaskCreate.t) (w w' : World) (task : Task.t) :
  create_task clock uuid4 task_data w = (inr task, w') ->
  exists priority,
    TaskCreate.priority task_data = Some priority
    /\ task = Task.mk (uuid4 (uuid_draws w)) (TaskCreate.title task_data)
                (TaskCreate.description task_data)
                (TaskCreate.project_id task_data)
                (TaskCreate.assigned_to task_data) TODO priority
                (Some (clock (clock_reads w))) (clock (S (clock_reads w))) None
    /\ w' = mkWorld (db_users w) (db_projects w) (db_tasks w ++ [task])
              (db_comments w) (S (S (clock_reads w))) (S (uuid_draws w)).
Proof.
  run_handler.
  destruct (find_one _ (db_projects w)); [|discriminate].
  destruct (TaskCreate.assigned_to task_data) as [u|].
  - destruct (str_truthy u).
    + destruct (find_one (has_user_id u) (db_users w)); [|discriminate].
      destruct (TaskCreate.priority task_data) as [p|]; [|discriminate].
      cbn. intros [= <- <-]. exists p. repeat split.
    + destruct (TaskCreate.priority task_data) as [p|]; [|discriminate].
      cbn. intros [= <- <-]. exists p. repeat split.
  - destruct (TaskCreate.priority task_data) as [p|]; [|discriminate].
    cbn. intros [= <- <-]. exists p. repeat split.
Qed.

Lemma firstn_app_last {A : Type} (n : nat) (l : list A) (x : A) :
  firstn n (l ++ [x]) = firstn n l \/ firstn n (l ++ [x]) = firstn n l ++ [x].
Proof.
  rewrite firstn_app. destruct (n - List.length l)%nat as [|k].
  - left. cbn. apply app_nil_r.
  - right. cbn. rewrite firstn_nil. reflexivity.
Qed.

Lemma find_to_list_app_last {A : Type} (matches : A -> bool) (n : nat)
    (coll : list A) (d : A) :
  find_to_list matches n (coll ++ [d]) = find_to_list matches n coll
  \/ find_to_list matches n (coll ++ [d]) = find_to_list matches n coll ++ [d].
Proof.
  unfold find_to_list. rewrite filter_app. cbn [filter].
  destruct (matches d).
  - apply firstn_app_last.
  - left. rewrite app_nil_r. reflexivity.
Qed.

(** Appending a task that is not DONE and has no [completed_at] changes
    neither the DONE tasks nor the elapsed times a scan collects. *)
Lemma scan_ignores_fresh_task (matches : Task.t -> bool) (coll : list Task.t)
    (task : Task.t) :
  Task.status task = TODO -> Task.completed_at task = None ->
  filter (has_status DONE) (find_to_list matches 1000 (coll ++ [task]))
  = filter (has_status DONE) (find_to_list matches 1000 coll)
  /\ completion_times (find_to_list matches 1000 (coll ++ [task]))
     = completion_times (find_to_list matches 1000 coll).
Proof.
  intros Hs Hc.
  destruct (find_to_list_app_last matches 1000 coll task) as [-> | ->];
    [split; reflexivity|].
  rewrite filter_app, completion_times_app. cbn [filter completion_times].
  unfold has_status. rewrite Hs, Hc. cbn. rewrite !app_nil_r. split; reflexivity.
Qed.

(** C10, as the code has it.  A task returned by POST /tasks has status TODO
    and a null [completed_at], whatever the body; its [created_at] is one
    clock read and its [updated_at] the next one; its priority is MEDIUM when
    the body omits it; it is appended to the store as returned; and no
    metrics count it as completed: for every project, and in the overview,
    [completed_tasks] and [average_completion_time_days] are what they were
    before the call. *)
Theorem created_task_is_todo_and_not_completed
    (clock : nat -> timestamp) (uuid4 : nat -> string) (w w' : World)
    (body : TaskCreateBody.t) (task : Task.t) :
  create_task clock uuid4 (parse_TaskCreate body) w = (inr task, w') ->
  Task.status task = TODO
  /\ Task.completed_at task = None
  /\ Task.created_at task = Some (clock (clock_reads w))
  /\ Task.updated_at task = clock (S (clock_reads w))
  /\ (TaskCreateBody.priority body = Absent -> Task.priority task = MEDIUM)
  /\ db_tasks w' = db_tasks w ++ [task]
  /\ (forall project_id,
         option_map ProjectMetrics.completed_tasks
           (value (get_project_metrics project_id w'))
         = option_map ProjectMetrics.completed_tasks
             (value (get_project_metrics project_id w))
         /\ option_map ProjectMetrics.average_completion_time_days
              (value (get_project_metrics project_id w'))
            = option_map ProjectMetrics.average_completion_time_days
                (value (get_project_metrics project_id w)))
  /\ option_map OverviewMetrics.completed_tasks (value (get_overview_metrics w'))
     = option_map OverviewMetrics.completed_tasks (value (get_overview_metrics w))
  /\ option_map OverviewMetrics.average_completion_time_days
       (value (get_overview_metrics w'))
     = option_map OverviewMetrics.average_completion_time_days
         (value (get_overview_metrics w)).
Proof.
  intros Hrun.
  destruct (create_task_inv _ _ _ _ _ _ Hrun) as (p & Hp & Htask & Hw').
  assert (Hs : Task.status task = TODO) by (rewrite Htask; reflexivity).
  assert (Hc : Task.completed_at task = None) by (rewrite Htask; reflexivity).
  assert (Htasks : db_tasks w' = db_tasks w ++ [task]) by (rewrite Hw'; reflexivity).
  assert (Hprojects : db_projects w' = db_projects w) by (rewrite Hw'; reflexivity).
  split; [exact Hs|]. split; [exact Hc|].
  split; [rewrite Htask; reflexivity|]. split; [rewrite Htask; reflexivity|].
  split.
  { intros Habsent. rewrite Htask. cbn [Task.priority].
    destruct body as [ti de pr asg prio]. cbn in Habsent, Hp. subst prio.
    congruence. }
  split; [exact Htasks|]. split; [|split].
  - intros project_id. unfold value. run_handler. rewrite Hprojects.
    destruct (find_one (has_project_id project_id) (db_projects w));
      [|split; reflexivity].
    cbn [fst option_map ProjectMetrics.completed_tasks
         ProjectMetrics.average_completion_time_days].
    rewrite Htasks.
    destruct (scan_ignores_fresh_task (in_project project_id) (db_tasks w) task Hs Hc)
      as [-> ->].
    split; reflexivity.
  - unfold value. rewrite !get_overview_metrics_eq.
    cbn [fst option_map OverviewMetrics.completed_tasks].
    unfold overview_tasks. rewrite Htasks.
    destruct (scan_ignores_fresh_task (has_status DONE) (db_tasks w) task Hs Hc)
      as [_ Ht].
    destruct (find_to_list_app_last (has_status DONE) 1000 (db_tasks w) task)
      as [-> | Happ]; [reflexivity|].
    exfalso.
    assert (Hin : In task (find_to_list (has_status DONE) 1000 (db_tasks w ++ [task]))).
    { rewrite Happ. apply in_or_app. right. left. reflexivity. }
    apply find_to_list_In in Hin. destruct Hin as [_ Hb].
    apply TaskStatus_eqb_eq in Hb. congruence.
  - unfold value. rewrite !get_overview_metrics_eq.
    cbn [fst option_map OverviewMetrics.average_completion_time_days].
    unfold overview_tasks. rewrite Htasks.
    destruct (scan_ignores_fresh_task (has_status DONE) (db_tasks w) task Hs Hc)
      as [_ ->].
    reflexivity.
Qed.

(** * The theorems at concrete inputs *)



Lemma update_of_missing_id_is_404_without_write_witness :
  let w := world_of [finished] in
  (find_one (has_user_id "nobody") (db_users w) = None
   /\ update_user "nobody" (UserUpdate.mk (Some "Grace") None None) w
      = (inl (HTTPException 404 "User not found"), w))
  /\ (find_one (has_project_id "nothing") (db_projects w) = None
      /\ update_project sample_clock "nothing" (ProjectUpdate.mk (Some "Beta") None) w
         = (inl (HTTPException 404 "Project not found"), w))
  /\ (find_one (has_task_id "t9") (db_tasks w) = None
      /\ update_task sample_clock "t9" (TaskUpdate.mk None None None (Some DONE) None) w
         = (inl (HTTPException 404 "Task not found"), w))
  /\ (find_one (has_task_id "t9") (db_tasks w) = None
      /\ update_task_status sample_clock "t9" (TaskStatusUpdate.mk DONE) w
         = (inl (HTTPException 404 "Task not found"), w)).
Proof.
  intros w.
  destruct (update_of_missing_id_is_404_without_write sample_clock w "nobody")
    as (Huser & _).
  destruct (update_of_missing_id_is_404_without_write sample_clock w "nothing")
    as (_ & Hproject & _).
  destruct (update_of_missing_id_is_404_without_write sample_clock w "t9")
    as (_ & _ & Hput & Hpatch).
  split; [split; [reflexivity | apply Huser; reflexivity]|].
  split; [split; [reflexivity | apply Hproject; reflexivity]|].
  split; [split; [reflexivity | apply Hput; reflexivity]|].
  split; [reflexivity | apply Hpatch; reflexivity].
Defined.

Lemma status_write_sets_or_clears_completed_at_witness :
  let w := world_of [finished] in
  find_one (has_task_id "t1") (db_tasks w) = Some finished
  /\ (exists task',
         fst (update_task_status sample_clock "t1" (TaskStatusUpdate.mk DONE) w)
         = inr task'
         /\ find_one (has_task_id "t1")
              (db_tasks (snd (update_task_status sample_clock "t1"
                                (TaskStatusUpdate.mk DONE) w))) = Some task'
         /\ Task.status task' = DONE
         /\ Task.updated_at task' = 1700000000000000
         /\ Task.completed_at task' = Some 1700000000000001)
  /\ (exists task',
         fst (update_task sample_clock "t1"
                (TaskUpdate.mk (Some "renamed") None None (Some IN_REVIEW) None) w)
         = inr task'
         /\ find_one (has_task_id "t1")
              (db_tasks (snd (update_task sample_clock "t1"
                                (TaskUpdate.mk (Some "renamed") None None
                                   (Some IN_REVIEW) None) w))) = Some task'
         /\ Task.status task' = IN_REVIEW
         /\ Task.updated_at task' = 1700000000000000
         /\ Task.completed_at task' = None).
Proof.
  intros w. split; [reflexivity|]. split.
  - apply (status_write_sets_or_clears_completed_at sample_clock w "t1" finished
             DONE _ eq_refl).
    left. reflexivity.
  - apply (status_write_sets_or_clears_completed_at sample_clock w "t1" finished
             IN_REVIEW _ eq_refl).
    right. exists (TaskUpdate.mk (Some "renamed") None None (Some IN_REVIEW) None).
    split; reflexivity.
Defined.



Lemma status_buckets_count_loaded_tasks_witness :
  let w := world_of [finished; sample_task "t2" IN_REVIEW (Some 0) None;
                     sample_task "t3" TODO (Some 0) None] in
  let m := ProjectMetrics.mk 3 1 0 1 (Some (round (elapsed_days 0 40) 2))
             (round (nat_Q 1 / nat_Q 3 * inject_Z 100) 2) in
  fst (get_project_metrics "p1" w) = inr m
  /\ (ProjectMetrics.todo_tasks m + ProjectMetrics.in_progress_tasks m
      + ProjectMetrics.completed_tasks m
      + count_occ TaskStatus_eq_dec (map Task.status (project_tasks "p1" w)) IN_REVIEW
      = ProjectMetrics.total_tasks m)%nat
  /\ (ProjectMetrics.todo_tasks m + ProjectMetrics.in_progress_tasks m
      + ProjectMetrics.completed_tasks m <= ProjectMetrics.total_tasks m)%nat.
Proof.
  intros w m.
  assert (Hrun : fst (get_project_metrics "p1" w) = inr m) by reflexivity.
  split; [exact Hrun|].
  exact (proj2 (proj2 (proj2 (proj2
           (status_buckets_count_loaded_tasks "p1" w m Hrun))))).
Defined.



(** With a clock that advances by one microsecond per read, the task that
    POST /tasks returns has an [updated_at] one microsecond after its
    [created_at]: the two default factories read the clock separately. *)
Lemma created_task_updated_at_is_a_later_clock_read :
  let body := TaskCreateBody.mk "title" "text" "p1" Absent Absent in
  exists task w',
    create_task sample_clock sample_uuid4 (parse_TaskCreate body) (world_of [])
    = (inr task, w')
    /\ Task.created_at task = Some 1700000000000000
    /\ Task.updated_at task = 1700000000000001
    /\ Task.created_at task <> Some (Task.updated_at task).
Proof.
  exists (Task.mk "uuid-0" "title" "text" "p1" None TODO MEDIUM
            (Some 1700000000000000) 1700000000000001 None).
  exists (mkWorld [sample_user] [sample_project]
            [Task.mk "uuid-0" "title" "text" "p1" None TODO MEDIUM
               (Some 1700000000000000) 1700000000000001 None] [] 2 1).
  split; [reflexivity|]. split; [reflexivity|].
  split; [reflexivity|]. discriminate.
Qed.

Lemma created_task_is_todo_and_not_completed_witness :
  let body := TaskCreateBody.mk "title" "text" "p1" (Value "u1") Absent in
  let w := world_of [finished] in
  let task :=
    Task.mk "uuid-0" "title" "text" "p1" (Some "u1") TODO MEDIUM
      (Some 1700000000000000) 1700000000000001 None in
  let w' := mkWorld [sample_user] [sample_project] [finished; task] [] 2 1 in
  create_task sample_clock sample_uuid4 (parse_TaskCreate body) w = (inr task, w')
  /\ option_map ProjectMetrics.completed_tasks (value (get_project_metrics "p1" w'))
     = option_map ProjectMetrics.completed_tasks (value (get_project_metrics "p1" w))
  /\ option_map OverviewMetrics.completed_tasks (value (get_overview_metrics w'))
     = option_map OverviewMetrics.completed_tasks (value (get_overview_metrics w)).
Proof.
  intros body w task w'.
  assert (Hrun : create_task sample_clock sample_uuid4 (parse_TaskCreate body) w
                 = (inr task, w')) by reflexivity.
  destruct (created_task_is_todo_and_not_completed sample_clock sample_uuid4 w w'
              body task Hrun) as (_ & _ & _ & _ & _ & _ & Hproject & Hoverview & _).
  split; [exact Hrun|]. split; [exact (proj1 (Hproject "p1")) | exact Hoverview].
Defined.

(** * The other handlers *)

Ltac run_other :=
  unfold create_user, get_users, get_user, delete_user, create_project,
    get_projects, get_project, delete_project, get_tasks, get_task, delete_task,
    create_comment, get_comments, delete_comment,
    bind, gets, modify, raise, ret, now, new_uuid;
  cbn [fst snd].

(** ** Deleting from a collection *)

Lemma delete_one_missing {A : Type} (matches : A -> bool) (coll : list A) :
  find_one matches coll = None -> delete_one matches coll = (0%nat, coll).
Proof.
  unfold find_one. induction coll as [|d rest IH]; [reflexivity|].
  cbn [find delete_one]. destruct (matches d); [discriminate|].
  intros H. rewrite (IH H). reflexivity.
Qed.

Lemma delete_one_found {A : Type} (matches : A -> bool) (coll : list A) (d : A) :
  find_one matches coll = Some d ->
  exists rest,
    delete_one matches coll = (1%nat, rest)
    /\ S (List.length rest) = List.length coll
    /\ (forall x, In x rest -> In x coll)
    /\ (forall x, In x coll -> matches x = false -> In x rest).
Proof.
  unfold find_one. induction coll as [|x rest IH]; [discriminate|].
  cbn [find delete_one]. destruct (matches x) eqn:Hx.
  - intros _. exists rest. split; [reflexivity|]. split; [reflexivity|].
    split; [intros y Hy; right; exact Hy|].
    intros y [<- | Hy] Hm; [congruence | exact Hy].
  - intros H. destruct (IH H) as (rest' & -> & Hlen & Hsub & Hkeep).
    exists (x :: rest'). split; [reflexivity|]. cbn [List.length].
    split; [rewrite Hlen; reflexivity|]. split.
    + intros y [<- | Hy]; [left; reflexivity | right; apply Hsub, Hy].
    + intros y [<- | Hy] Hm; [left; reflexivity | right; apply Hkeep; assumption].
Qed.

Lemma delete_one_incl {A : Type} (matches : A -> bool) (coll : list A) :
  forall x, In x (snd (delete_one matches coll)) -> In x coll.
Proof.
  induction coll as [|d rest IH]; intros x; cbn [delete_one]; [trivial|].
  destruct (matches d); cbn [snd]; [intros H; right; exact H|].
  destruct (delete_one matches rest) as [n rest']. cbn [snd] in IH |- *.
  intros [<- | H]; [left; reflexivity | right; apply IH, H].
Qed.

Lemma delete_many_In {A : Type} (matches : A -> bool) (coll : list A) (x : A) :
  In x (delete_many matches coll) <-> In x coll /\ matches x = false.
Proof.
  unfold delete_many. rewrite filter_In, negb_true_iff. reflexivity.
Qed.

Lemma world_eta (w : World) :
  mkWorld (db_users w) (db_projects w) (db_tasks w) (db_comments w)
    (clock_reads w) (uuid_draws w) = w.
Proof. destruct w. reflexivity. Qed.

(** X3.  DELETE of a user, project, task or comment whose id is not stored
    fails with 404 and writes nothing; in particular a failed project delete
    removes no task and a failed task delete removes no comment. *)
Theorem delete_of_missing_id_is_404_without_write (w : World) (id : string) :
  (find_one (has_user_id id) (db_users w) = None ->
   delete_user id w = (inl (HTTPException 404 "User not found"), w))
  /\ (find_one (has_project_id id) (db_projects w) = None ->
      delete_project id w = (inl (HTTPException 404 "Project not found"), w))
  /\ (find_one (has_task_id id) (db_tasks w) = None ->
      delete_task id w = (inl (HTTPException 404 "Task not found"), w))
  /\ (find_one (has_comment_id id) (db_comments w) = None ->
      delete_comment id w = (inl (HTTPException 404 "Comment not found"), w)).
Proof.
  repeat split; intros Hnone; run_other;
    rewrite (delete_one_missing _ _ Hnone); cbn;
    unfold set_users, set_projects, set_tasks, set_comments;
    rewrite world_eta; reflexivity.
Qed.

(** X1.  DELETE /projects/{id} of a stored project succeeds, removes exactly
    one project document, and leaves in the task collection exactly the tasks
    of the other projects; users and comments, including the comments on the
    deleted tasks, are left as they were. *)
Theorem delete_project_cascades_to_tasks_only (w : World) (id : string)
    (project : Project.t) :
  find_one (has_project_id id) (db_projects w) = Some project ->
  exists w',
    delete_project id w = (inr "Project deleted successfully", w')
    /\ (forall t, In t (db_tasks w') <-> In t (db_tasks w) /\ Task.project_id t <> id)
    /\ S (List.length (db_projects w')) = List.length (db_projects w)
    /\ (forall p, In p (db_projects w') -> In p (db_projects w))
    /\ (forall p, In p (db_projects w) -> Project.id p <> id -> In p (db_projects w'))
    /\ db_users w' = db_users w
    /\ db_comments w' = db_comments w.
Proof.
  intros Hfind. run_other.
  destruct (delete_one_found _ _ _ Hfind) as (rest & -> & Hlen & Hsub & Hkeep).
  cbn -[delete_many]. eexists. split; [reflexivity|]. cbn -[delete_many]. split.
  - intros t. rewrite delete_many_In. unfold in_project.
    rewrite String.eqb_neq. reflexivity.
  - split; [exact Hlen|]. split; [exact Hsub|]. split; [|split; reflexivity].
    intros p Hp Hid. apply Hkeep; [exact Hp|].
    unfold has_project_id. apply String.eqb_neq. exact Hid.
Qed.

(** X2.  DELETE /tasks/{id} of a stored task succeeds, removes exactly one
    task document, and leaves in the comment collection exactly the comments
    on other tasks; users and projects are left as they were. *)
Theorem delete_task_cascades_to_comments (w : World) (id : string) (task : Task.t) :
  find_one (has_task_id id) (db_tasks w) = Some task ->
  exists w',
    delete_task id w = (inr "Task deleted successfully", w')
    /\ (forall c, In c (db_comments w')
                  <-> In c (db_comments w) /\ Comment.task_id c <> id)
    /\ S (List.length (db_tasks w')) = List.length (db_tasks w)
    /\ (forall t, In t (db_tasks w') -> In t (db_tasks w))
    /\ (forall t, In t (db_tasks w) -> Task.id t <> id -> In t (db_tasks w'))
    /\ db_users w' = db_users w
    /\ db_projects w' = db_projects w.
Proof.
  intros Hfind. run_other.
  destruct (delete_one_found _ _ _ Hfind) as (rest & -> & Hlen & Hsub & Hkeep).
  cbn -[delete_many]. eexists. split; [reflexivity|]. cbn -[delete_many]. split.
  - intros c. rewrite delete_many_In. unfold on_task.
    rewrite String.eqb_neq. reflexivity.
  - split; [exact Hlen|]. split; [exact Hsub|]. split; [|split; reflexivity].
    intros t Ht Hid. apply Hkeep; [exact Ht|].
    unfold has_task_id. apply String.eqb_neq. exact Hid.
Qed.

(** X4.  DELETE /users/{id} of a stored user removes one user document and
    nothing else: projects owned by the user, tasks assigned to the user and
    the user's comments all stay in the store with their references to it. *)
Theorem delete_user_does_not_cascade (w : World) (id : string) (user : User.t) :
  find_one (has_user_id id) (db_users w) = Some user ->
  exists w',
    delete_user id w = (inr "User deleted successfully", w')
    /\ S (List.length (db_users w')) = List.length (db_users w)
    /\ db_projects w' = db_projects w
    /\ db_tasks w' = db_tasks w
    /\ db_comments w' = db_comments w.
Proof.
  intros Hfind. run_other.
  destruct (delete_one_found _ _ _ Hfind) as (rest & -> & Hlen & _).
  cbn. eexists. split; [reflexivity|]. cbn. repeat split. exact Hlen.
Qed.

(** ** Listing *)



(** ** Lookups by id *)



Lemma find_one_app_last_found {A : Type} (matches : A -> bool) (coll : list A)
    (d x : A) :
  find_one matches coll = Some x -> find_one matches (coll ++ [d]) = Some x.
Proof.
  unfold find_one. induction coll as [|y rest IH]; cbn [app find]; [discriminate|].
  destruct (matches y); [trivial | exact IH].
Qed.


(** ** Creation and referential checks *)

(** X7.  POST /tasks checks its references before it draws an id or reads
    the clock: with no stored project of the given [project_id] it fails with
    404 "Project not found", and with a stored project but a non-empty
    [assigned_to] that no stored user carries it fails with 404 "Assigned user
    not found"; in both cases nothing is written. *)
Theorem create_task_rejects_dangling_references
    (clock : nat -> timestamp) (uuid4 : nat -> string) (w : World)
    (task_data : TaskCreate.t) :
  (find_one (has_project_id (TaskCreate.project_id task_data)) (db_projects w) = None ->
   create_task clock uuid4 task_data w
   = (inl (HTTPException 404 "Project not found"), w))
  /\ (forall project u,
         find_one (has_project_id (TaskCreate.project_id task_data)) (db_projects w)
         = Some project ->
         TaskCreate.assigned_to task_data = Some u -> u <> "" ->
         find_one (has_user_id u) (db_users w) = None ->
         create_task clock uuid4 task_data w
         = (inl (HTTPException 404 "Assigned user not found"), w)).
Proof.
  split.
  - intros Hnone. run_handler. rewrite Hnone. reflexivity.
  - intros project u Hfind Hassigned Hne Huser. run_handler.
    rewrite Hfind, Hassigned. destruct u; [congruence|]. cbn [str_truthy].
    rewrite Huser. reflexivity.
Qed.



(** X10.  POST /comments checks the task first and the user second: without
    a stored task of that id it fails with 404 "Task not found" whatever the
    user, with the task but without the user it fails with 404 "User not
    found", and either failure writes nothing; with both it appends one
    comment and touches no other collection. *)
Theorem create_comment_checks_task_then_user
    (clock : nat -> timestamp) (uuid4 : nat -> string) (w : World)
    (comment_data : CommentCreate.t) :
  (find_one (has_task_id (CommentCreate.task_id comment_data)) (db_tasks w) = None ->
   create_comment clock uuid4 comment_data w
   = (inl (HTTPException 404 "Task not found"), w))
  /\ (forall task,
         find_one (has_task_id (CommentCreate.task_id comment_data)) (db_tasks w)
         = Some task ->
         find_one (has_user_id (CommentCreate.user_id comment_data)) (db_users w)
         = None ->
         create_comment clock uuid4 comment_data w
         = (inl (HTTPException 404 "User not found"), w))
  /\ (forall task user,
         find_one (has_task_id (CommentCreate.task_id comment_data)) (db_tasks w)
         = Some task ->
         find_one (has_user_id (CommentCreate.user_id comment_data)) (db_users w)
         = Some user ->
         let comment :=
           Comment.mk (uuid4 (uuid_draws w)) (CommentCreate.task_id comment_data)
             (CommentCreate.user_id comment_data) (CommentCreate.text comment_data)
             (clock (clock_reads w)) in
         exists w',
           create_comment clock uuid4 comment_data w = (inr comment, w')
           /\ db_comments w' = db_comments w ++ [comment]
           /\ db_users w' = db_users w /\ db_projects w' = db_projects w
           /\ db_tasks w' = db_tasks w).
Proof.
  split; [|split].
  - intros Hnone. run_other. rewrite Hnone. reflexivity.
  - intros task Htask Huser. run_other. rewrite Htask. cbn. rewrite Huser.
    reflexivity.
  - intros task user Htask Huser comment. run_other. rewrite Htask. cbn.
    rewrite Huser. cbn. eexists. split; [reflexivity|]. repeat split.
Qed.

(** X11.  A user that POST /users has just returned can own a project:
    POST /projects with that user's id as [owner_id], on the world the first
    call left, succeeds and stores a project owned by it. *)
Theorem created_user_can_own_a_project
    (clock : nat -> timestamp) (uuid4 : nat -> string) (w w' : World)
    (user_data : UserCreate.t) (user : User.t) (name description : string) :
  create_user clock uuid4 user_data w = (inr user, w') ->
  exists project w'',
    create_project clock uuid4 (ProjectCreate.mk name description (User.id user)) w'
    = (inr project, w'')
    /\ Project.owner_id project = User.id user
    /\ In project (db_projects w'')
    /\ In user (db_users w'').
Proof.
  run_other. destruct (UserCreate.avatar_color user_data) as [color|];
    [|discriminate].
  cbn -[find_one]. intros [= <- <-]. cbn -[find_one].
  destruct (find_one (has_user_id (uuid4 (uuid_draws w)))
              (db_users w ++
               [User.mk (uuid4 (uuid_draws w)) (UserCreate.name user_data)
                  (UserCreate.email user_data) color (clock (clock_reads w))]))
    as [owner|] eqn:Hfind.
  - cbn. eexists. eexists. split; [reflexivity|]. cbn. split; [reflexivity|].
    split; apply in_or_app; right; left; reflexivity.
  - exfalso. pose proof (proj1 (find_one_None_iff _ _) Hfind) as Hall.
    assert (Hin : In (User.mk (uuid4 (uuid_draws w)) (UserCreate.name user_data)
                        (UserCreate.email user_data) color (clock (clock_reads w)))
                    (db_users w ++
                     [User.mk (uuid4 (uuid_draws w)) (UserCreate.name user_data)
                        (UserCreate.email user_data) color (clock (clock_reads w))])).
    { apply in_or_app. right. left. reflexivity. }
    specialize (Hall _ Hin).
    unfold has_user_id in Hall. cbn in Hall. rewrite String.eqb_refl in Hall.
    discriminate.
Qed.

(** ** What a task write touches *)

Lemma update_task_world (clock : nat -> timestamp) (task_id : string)
    (task_data : TaskUpdate.t) (w : World) :
  exists tasks reads,
    snd (update_task clock task_id task_data w)
    = mkWorld (db_users w) (db_projects w) tasks (db_comments w) reads (uuid_draws w)
    /\ (tasks = db_tasks w
        \/ exists u, status_rule u
                     /\ tasks = update_one (has_task_id task_id) (task_set u)
                                  (db_tasks w)).
Proof.
  run_handler.
  destruct (find_one (has_task_id task_id) (db_tasks w)) as [task|].
  - destruct (task_set_nonempty (task_update_data task_data)).
    + destruct task_data as [ti de asg [[]|] pr]; cbn;
        eexists; eexists; (split; [reflexivity|]); right; eexists;
        (split; [|reflexivity]); unfold status_rule; cbn; eauto.
    + cbn. exists (db_tasks w), (clock_reads w). rewrite world_eta.
      split; [reflexivity | left; reflexivity].
  - cbn. exists (db_tasks w), (clock_reads w). rewrite world_eta.
    split; [reflexivity | left; reflexivity].
Qed.

Lemma update_task_status_world (clock : nat -> timestamp) (task_id : string)
    (status_data : TaskStatusUpdate.t) (w : World) :
  exists tasks reads,
    snd (update_task_status clock task_id status_data w)
    = mkWorld (db_users w) (db_projects w) tasks (db_comments w) reads (uuid_draws w)
    /\ (tasks = db_tasks w
        \/ exists u, status_rule u
                     /\ tasks = update_one (has_task_id task_id) (task_set u)
                                  (db_tasks w)).
Proof.
  run_handler.
  destruct (find_one (has_task_id task_id) (db_tasks w)) as [task|].
  - destruct status_data as [[]]; cbn;
      eexists; eexists; (split; [reflexivity|]); right; eexists;
      (split; [|reflexivity]); unfold status_rule; cbn; eauto.
  - cbn. exists (db_tasks w), (clock_reads w). rewrite world_eta.
    split; [reflexivity | left; reflexivity].
Qed.

Lemma update_one_ids (task_id : string) (u : TaskSet.t) (tasks : list Task.t) :
  map Task.id (update_one (has_task_id task_id) (task_set u) tasks)
  = map Task.id tasks.
Proof.
  induction tasks as [|t rest IH]; [reflexivity|]. cbn [update_one].
  destruct (has_task_id task_id t); cbn [map]; [reflexivity|].
  rewrite IH. reflexivity.
Qed.

Lemma update_one_others {A : Type} (matches : A -> bool) (set : A -> A)
    (coll : list A) (n : nat) (d : A) :
  nth_error coll n = Some d -> matches d = false ->
  nth_error (update_one matches set coll) n = Some d.
Proof.
  revert n. induction coll as [|x rest IH]; intros n Hn Hd; [destruct n; discriminate|].
  cbn [update_one]. destruct n as [|n]; cbn in Hn |- *.
  - injection Hn as ->. rewrite Hd. reflexivity.
  - destruct (matches x); cbn; [exact Hn | apply IH; assumption].
Qed.

(** X12.  PUT /tasks/{id} and PATCH /tasks/{id}/status, whether they succeed
    or fail, leave the users, the projects and the comments as they were, keep
    the task collection's ids in place and in order, and leave every task
    with another id unchanged at its position. *)
Theorem task_writes_touch_one_task_only
    (clock : nat -> timestamp) (w : World) (id : string)
    (task_data : TaskUpdate.t) (status_data : TaskStatusUpdate.t) (w' : World) :
  w' = snd (update_task clock id task_data w)
  \/ w' = snd (update_task_status clock id status_data w) ->
  db_users w' = db_users w
  /\ db_projects w' = db_projects w
  /\ db_comments w' = db_comments w
  /\ map Task.id (db_tasks w') = map Task.id (db_tasks w)
  /\ (forall n t, nth_error (db_tasks w) n = Some t -> Task.id t <> id ->
                  nth_error (db_tasks w') n = Some t).
Proof.
  intros Hw'.
  assert (Hshape : exists tasks reads,
    w' = mkWorld (db_users w) (db_projects w) tasks (db_comments w) reads (uuid_draws w)
    /\ (tasks = db_tasks w
        \/ exists u, status_rule u
                     /\ tasks = update_one (has_task_id id) (task_set u) (db_tasks w))).
  { destruct Hw' as [-> | ->];
      [apply update_task_world | apply update_task_status_world]. }
  destruct Hshape as (tasks & reads & -> & Htasks). cbn.
  split; [reflexivity|]. split; [reflexivity|]. split; [reflexivity|].
  destruct Htasks as [-> | (u & _ & ->)].
  - split; [reflexivity|]. intros n t Hn _. exact Hn.
  - split; [apply update_one_ids|]. intros n t Hn Hid.
    apply update_one_others; [exact Hn|]. apply String.eqb_neq. exact Hid.
Qed.

(** X13.  PUT /tasks/{id} never looks at the users: with any other user
    collection in the store it returns the same result and leaves the same
    tasks, so an [assigned_to] naming no stored user is accepted and
    stored. *)
Theorem update_task_does_not_check_the_assignee
    (clock : nat -> timestamp) (w : World) (id : string)
    (task_data : TaskUpdate.t) (users : list User.t) :
  fst (update_task clock id task_data (set_users users w))
  = fst (update_task clock id task_data w)
  /\ db_tasks (snd (update_task clock id task_data (set_users users w)))
     = db_tasks (snd (update_task clock id task_data w)).
Proof.
  run_handler. cbn [set_users db_tasks clock_reads].
  destruct (find_one (has_task_id id) (db_tasks w)) as [task|];
    [|split; reflexivity].
  destruct (task_set_nonempty (task_update_data task_data)); [|split; reflexivity].
  destruct task_data as [ti de asg [[]|] pr]; cbn; split; reflexivity.
Qed.

(** ** The derived-timestamp invariant *)

Lemma task_set_consistent (u : TaskSet.t) (d : Task.t) :
  status_rule u -> completion_consistent d = true ->
  completion_consistent (task_set u d) = true.
Proof.
  unfold status_rule, completion_consistent, has_status, task_set.
  cbn [Task.completed_at Task.status].
  destruct (TaskSet.status u) as [[]|]; cbn [or_keep].
  - intros ->. reflexivity.
  - intros ->. reflexivity.
  - intros ->. reflexivity.
  - intros (ts & ->). reflexivity.
  - intros ->. trivial.
Qed.

Lemma update_one_Forall {A : Type} (P : A -> Prop) (matches : A -> bool)
    (set : A -> A) (coll : list A) :
  (forall d, P d -> P (set d)) -> Forall P coll ->
  Forall P (update_one matches set coll).
Proof.
  intros Hset. induction 1 as [|x rest Hx Hrest IH]; [constructor|].
  cbn [update_one]. destruct (matches x); constructor; auto.
Qed.

(** X14.  If in every stored task [completed_at] is present exactly when the
    status is DONE, the same is true after POST /tasks, PUT /tasks/{id},
    PATCH /tasks/{id}/status, DELETE /tasks/{id} and DELETE /projects/{id},
    whatever their arguments and whether they succeed or fail. *)
Theorem task_handlers_keep_completed_at_consistent
    (clock : nat -> timestamp) (uuid4 : nat -> string) (w w' : World)
    (id : string) (body : TaskCreate.t) (task_data : TaskUpdate.t)
    (status_data : TaskStatusUpdate.t) :
  Forall (fun t => completion_consistent t = true) (db_tasks w) ->
  w' = snd (create_task clock uuid4 body w)
  \/ w' = snd (update_task clock id task_data w)
  \/ w' = snd (update_task_status clock id status_data w)
  \/ w' = snd (delete_task id w)
  \/ w' = snd (delete_project id w) ->
  Forall (fun t => completion_consistent t = true) (db_tasks w').
Proof.
  intros Hinv [-> | [-> | [-> | [-> | ->]]]].
  - destruct (create_task clock uuid4 body w) as [[e|task] w1] eqn:Hrun.
    + revert Hrun. run_handler.
      destruct (find_one _ (db_projects w)); [|intros [= _ <-]; exact Hinv].
      destruct (TaskCreate.assigned_to body) as [u|].
      * destruct (str_truthy u).
        -- destruct (find_one (has_user_id u) (db_users w));
             [|intros [= _ <-]; exact Hinv].
           destruct (TaskCreate.priority body); [discriminate|].
           intros [= _ <-]; exact Hinv.
        -- destruct (TaskCreate.priority body); [discriminate|].
           intros [= _ <-]; exact Hinv.
      * destruct (TaskCreate.priority body); [discriminate|].
        intros [= _ <-]; exact Hinv.
    + destruct (create_task_inv _ _ _ _ _ _ Hrun) as (p & _ & -> & ->).
      cbn. apply Forall_app. split; [exact Hinv|].
      constructor; [reflexivity | constructor].
  - destruct (update_task_world clock id task_data w)
      as (tasks & reads & -> & [-> | (u & Hu & ->)]); cbn; [exact Hinv|].
    apply update_one_Forall; [|exact Hinv].
    intros d. apply task_set_consistent, Hu.
  - destruct (update_task_status_world clock id status_data w)
      as (tasks & reads & -> & [-> | (u & Hu & ->)]); cbn; [exact Hinv|].
    apply update_one_Forall; [|exact Hinv].
    intros d. apply task_set_consistent, Hu.
  - run_other.
    pose proof (delete_one_incl (has_task_id id) (db_tasks w)) as Hsub.
    destruct (delete_one (has_task_id id) (db_tasks w)) as [n rest].
    cbn [snd] in Hsub.
    assert (Hrest : Forall (fun t => completion_consistent t = true) rest).
    { apply Forall_forall. intros t Ht.
      exact (proj1 (Forall_forall _ _) Hinv t (Hsub t Ht)). }
    destruct (n =? 0)%nat; exact Hrest.
  - run_other.
    destruct (delete_one (has_project_id id) (db_projects w)) as [n rest].
    destruct (n =? 0)%nat; cbn -[delete_many]; [exact Hinv|].
    apply Forall_forall. intros t Ht. apply delete_many_In in Ht.
    exact (proj1 (Forall_forall _ _) Hinv t (proj1 Ht)).
Qed.

(** X15.  Two status writes in a row on a stored task: the second PATCH
    succeeds whatever the first one requested, and the task then persisted
    has the second status, a [completed_at] that is null unless the second
    status is DONE (then it is the clock read of the second call), and the
    title, description, project, assignee, priority and [created_at] it had
    before the first write.  In particular DONE followed by any reopening
    leaves no completion timestamp behind. *)
Theorem last_status_write_wins
    (clock : nat -> timestamp) (w : World) (id : string) (task : Task.t)
    (s1 s2 : TaskStatus) :
  find_one (has_task_id id) (db_tasks w) = Some task ->
  let w1 := snd (update_task_status clock id (TaskStatusUpdate.mk s1) w) in
  exists task2 w2,
    update_task_status clock id (TaskStatusUpdate.mk s2) w1 = (inr task2, w2)
    /\ find_one (has_task_id id) (db_tasks w2) = Some task2
    /\ Task.status task2 = s2
    /\ Task.completed_at task2
       = match s2 with
         | DONE => Some (clock (S (clock_reads w1)))
         | _ => None
         end
    /\ Task.title task2 = Task.title task
    /\ Task.description task2 = Task.description task
    /\ Task.project_id task2 = Task.project_id task
    /\ Task.assigned_to task2 = Task.assigned_to task
    /\ Task.priority task2 = Task.priority task
    /\ Task.created_at task2 = Task.created_at task.
Proof.
  intros Hfind w1. subst w1.
  rewrite (update_task_status_found clock id s1 w task Hfind). cbn [snd].
  match goal with
  | |- context [update_one (has_task_id id) (task_set ?u) (db_tasks w)] =>
      pose proof (find_one_update_one (has_task_id id) (task_set u) (db_tasks w)
                    task (has_task_id_set id u) Hfind) as Hfind1
  end.
  match goal with
  | |- context [update_task_status clock id (TaskStatusUpdate.mk s2) ?w1] =>
      pose proof (update_task_status_found clock id s2 w1 _ Hfind1) as Hrun;
      cbv zeta in Hrun; cbn [db_tasks] in Hrun
  end.
  eexists. eexists. split; [exact Hrun|]. cbn [db_tasks]. split.
  - apply find_one_update_one; [apply has_task_id_set | exact Hfind1].
  - destruct s1, s2; repeat split; reflexivity.
Qed.

(** ** Listings after a cascade *)

Lemma filter_none {A : Type} (f : A -> bool) (l : list A) :
  (forall x, In x l -> f x = false) -> filter f l = [].
Proof.
  induction l as [|x rest IH]; intros H; [reflexivity|]. cbn [filter].
  rewrite (H x (or_introl eq_refl)). apply IH.
  intros y Hy. apply H. right. exact Hy.
Qed.

(** X16.  The cascades are visible through the listings: after a successful
    DELETE /projects/{id}, GET /tasks?project_id=id returns the empty list,
    whatever other filters it is given, and after a successful
    DELETE /tasks/{id}, GET /comments?task_id=id returns the empty list.
    (The id is not the empty string, which both listings read as no
    filter.) *)
Theorem listings_are_empty_after_a_cascade (w w' : World) (id : string)
    (message : string) :
  id <> "" ->
  (delete_project id w = (inr message, w') ->
   forall assigned_to status,
     get_tasks (Some id) assigned_to status w' = (inr [], w'))
  /\ (delete_task id w = (inr message, w') ->
      get_comments (Some id) w' = (inr [], w')).
Proof.
  intros Hid. assert (Htruthy : str_truthy id = true) by (destruct id; [congruence | reflexivity]).
  split.
  - run_other.
    destruct (delete_one (has_project_id id) (db_projects w)) as [n rest].
    destruct (n =? 0)%nat; [discriminate|]. cbn -[delete_many].
    intros [= _ <-] assigned_to status. cbn -[delete_many].
    unfold find_to_list. rewrite filter_none; [reflexivity|].
    intros t Ht. apply delete_many_In in Ht. destruct Ht as [_ Hp].
    unfold tasks_filter, truthy_param. rewrite Htruthy.
    unfold in_project in Hp. rewrite Hp. reflexivity.
  - run_other.
    destruct (delete_one (has_task_id id) (db_tasks w)) as [n rest].
    destruct (n =? 0)%nat; [discriminate|]. cbn -[delete_many].
    intros [= _ <-]. cbn -[delete_many].
    unfold find_to_list. rewrite filter_none; [reflexivity|].
    intros c Hc. apply delete_many_In in Hc. destruct Hc as [_ Hp].
    unfold comments_filter, truthy_param. rewrite Htruthy.
    unfold on_task in Hp. exact Hp.
Qed.

(** ** POST /users *)


(** ** Accuracy and range of the reported metrics *)



Lemma sum_from_nonneg (xs : list Q) (acc : Q) :
  (0 <= acc)%Q -> Forall (fun x => 0 <= x)%Q xs -> (0 <= fold_left Qplus xs acc)%Q.
Proof.
  intros Hacc Hxs. revert acc Hacc.
  induction Hxs as [|x rest Hx Hrest IH]; intros acc Hacc; [exact Hacc|].
  cbn [fold_left]. apply IH.
  rewrite <- (Qplus_0_l 0). apply Qplus_le_compat; assumption.
Qed.

Lemma elapsed_days_nonneg (created completed : timestamp) :
  created <= completed -> (0 <= elapsed_days created completed)%Q.
Proof.
  intros H. unfold elapsed_days, Qle, Qdiv, Qmult, Qinv, inject_Z. cbn. lia.
Qed.

Lemma completion_times_nonneg (tasks : list Task.t) :
  (forall t created completed,
      In t tasks -> Task.created_at t = Some created ->
      Task.completed_at t = Some completed -> created <= completed) ->
  Forall (fun x => 0 <= x)%Q (completion_times tasks).
Proof.
  induction tasks as [|t rest IH]; intros H; [constructor|].
  cbn [completion_times].
  assert (Hrest : Forall (fun x => 0 <= x)%Q (completion_times rest)).
  { apply IH. intros t' r c Hin. apply H. right. exact Hin. }
  destruct (Task.completed_at t) as [c|] eqn:Hc; [|exact Hrest].
  destruct (Task.created_at t) as [r|] eqn:Hr; [|exact Hrest].
  constructor; [|exact Hrest].
  apply elapsed_days_nonneg. exact (H t r c (or_introl eq_refl) Hr Hc).
Qed.

Lemma mean_nonneg (total : Q) (n : nat) :
  (0 <= total)%Q -> (0 # 100 <= total / nat_Q (S n))%Q.
Proof.
  unfold nat_Q, Qle, Qdiv, Qmult, Qinv, inject_Z.
  rewrite Nat2Z.inj_succ. cbn [Qnum Qden].
  destruct (Z.succ (Z.of_nat n)) eqn:E; try lia. cbn [Qnum Qden]. lia.
Qed.

Lemma rounded_average_inv (times : list Q) (a : Q) :
  rounded_average (avg_completion_time times) = Some a ->
  times <> []
  /\ a = round (sum times / nat_Q (List.length times)) 2.
Proof.
  destruct times as [|x rest]; [discriminate|].
  cbn [avg_completion_time rounded_average].
  destruct (float_truthy _); [|discriminate].
  intros [= <-]. split; [discriminate | reflexivity].
Qed.


(** X19.  When no loaded task of the project was completed before it was
    created, the average the per-project metrics report, if any, is not
    negative. *)
Theorem project_average_is_not_negative (project_id : string) (w : World)
    (m : ProjectMetrics.t) (a : Q) :
  (forall t created completed,
      In t (project_tasks project_id w) ->
      Task.created_at t = Some created -> Task.completed_at t = Some completed ->
      created <= completed) ->
  fst (get_project_metrics project_id w) = inr m ->
  ProjectMetrics.average_completion_time_days m = Some a ->
  (0 <= a)%Q.
Proof.
  intros Horder Hrun Ha. destruct (get_project_metrics_inv _ _ _ Hrun) as [_ ->].
  cbn [ProjectMetrics.average_completion_time_days] in Ha.
  apply rounded_average_inv in Ha. destruct Ha as [Hne ->].
  pose proof (completion_times_nonneg _ Horder) as Hall.
  destruct (completion_times (project_tasks project_id w)) as [|x rest] eqn:Htimes;
    [congruence|].
  cbn [List.length].
  apply Qle_trans with (0 # 100)%Q; [unfold Qle; cbn; lia|].
  apply (round_2_lower _ 0), mean_nonneg.
  unfold sum. apply sum_from_nonneg; [apply Qle_refl | exact Hall].
Qed.

(** X20.  GET /metrics/overview never fails and never writes; its three
    totals are the sizes of the collections, and [completed_tasks] is at most
    [total_tasks], at most 1000, and equal to the number of stored DONE tasks
    whenever there are at most 1000 of them. *)
Theorem overview_counts (w : World) :
  exists m,
    get_overview_metrics w = (inr m, w)
    /\ OverviewMetrics.total_projects m = List.length (db_projects w)
    /\ OverviewMetrics.total_tasks m = List.length (db_tasks w)
    /\ OverviewMetrics.total_users m = List.length (db_users w)
    /\ (OverviewMetrics.completed_tasks m <= OverviewMetrics.total_tasks m)%nat
    /\ (OverviewMetrics.completed_tasks m <= 1000)%nat
    /\ ((count_occ TaskStatus_eq_dec (map Task.status (db_tasks w)) DONE <= 1000)%nat ->
        OverviewMetrics.completed_tasks m
        = count_occ TaskStatus_eq_dec (map Task.status (db_tasks w)) DONE).
Proof.
  eexists. split; [apply get_overview_metrics_eq|].
  cbn [OverviewMetrics.total_projects OverviewMetrics.total_tasks
       OverviewMetrics.total_users OverviewMetrics.completed_tasks].
  split; [reflexivity|]. split; [reflexivity|]. split; [reflexivity|].
  unfold overview_tasks, find_to_list. split; [|split].
  - rewrite length_firstn.
    pose proof (filter_length_le (has_status DONE) (db_tasks w)). lia.
  - apply firstn_le_length.
  - rewrite <- filter_length_count. intros Hcap.
    rewrite firstn_all2 by exact Hcap. reflexivity.
Qed.

(** ** Updates that carry nothing, and the stamp of those that carry something *)


(** X22.  PUT on a stored project or task with at least one field present
    stamps [updated_at], in the returned and in the persisted document, with
    the first clock read of the call, also when the values sent are the ones
    already stored. *)
Theorem non_empty_update_stamps_updated_at
    (clock : nat -> timestamp) (w : World) (id : string) :
  (forall project project_data,
      find_one (has_project_id id) (db_projects w) = Some project ->
      project_data <> ProjectUpdate.mk None None ->
      exists project' w',
        update_project clock id project_data w = (inr project', w')
        /\ find_one (has_project_id id) (db_projects w') = Some project'
        /\ Project.updated_at project' = clock (clock_reads w))
  /\ (forall task task_data,
         find_one (has_task_id id) (db_tasks w) = Some task ->
         task_data <> TaskUpdate.mk None None None None None ->
         exists task' w',
           update_task clock id task_data w = (inr task', w')
           /\ find_one (has_task_id id) (db_tasks w') = Some task'
           /\ Task.updated_at task' = clock (clock_reads w)).
Proof.
  split.
  - intros project project_data Hfind Hne. run_handler. rewrite Hfind.
    destruct project_data as [[n|] [d|]]; try congruence;
      cbn -[find_one]; eexists; eexists; (split; [reflexivity|]);
      cbn -[find_one];
      (split; [apply find_one_update_one; [apply has_project_id_set | exact Hfind]
              | reflexivity]).
  - intros task task_data Hfind Hne. run_handler. rewrite Hfind.
    destruct task_data as [[ti|] [de|] [asg|] [[]|] [pr|]]; try congruence;
      cbn -[find_one]; eexists; eexists; (split; [reflexivity|]);
      cbn -[find_one];
      (split; [apply find_one_update_one; [apply has_task_id_set | exact Hfind]
              | reflexivity]).
Qed.

(** * The other handlers at concrete inputs *)

Lemma delete_project_cascades_to_tasks_only_witness :
  let w := sample_store in
  find_one (has_project_id "p1") (db_projects w) = Some sample_project
  /\ exists w',
       delete_project "p1" w = (inr "Project deleted successfully", w')
       /\ (forall t, In t (db_tasks w')
                     <-> In t (db_tasks w) /\ Task.project_id t <> "p1")
       /\ db_comments w' = db_comments w.
Proof.
  intros w. split; [reflexivity|].
  destruct (delete_project_cascades_to_tasks_only w "p1" sample_project eq_refl)
    as (w' & Hrun & Htasks & _ & _ & _ & _ & Hcomments).
  exists w'. split; [exact Hrun|]. split; [exact Htasks | exact Hcomments].
Defined.

Lemma delete_task_cascades_to_comments_witness :
  let w := sample_store in
  find_one (has_task_id "t1") (db_tasks w) = Some finished
  /\ exists w',
       delete_task "t1" w = (inr "Task deleted successfully", w')
       /\ (forall c, In c (db_comments w')
                     <-> In c (db_comments w) /\ Comment.task_id c <> "t1")
       /\ db_projects w' = db_projects w.
Proof.
  intros w. split; [reflexivity|].
  destruct (delete_task_cascades_to_comments w "t1" finished eq_refl)
    as (w' & Hrun & Hcomments & _ & _ & _ & _ & Hprojects).
  exists w'. split; [exact Hrun|]. split; [exact Hcomments | exact Hprojects].
Defined.

Lemma delete_of_missing_id_is_404_without_write_witness :
  let w := sample_store in
  (find_one (has_project_id "p9") (db_projects w) = None
   /\ delete_project "p9" w = (inl (HTTPException 404 "Project not found"), w))
  /\ (find_one (has_comment_id "c9") (db_comments w) = None
      /\ delete_comment "c9" w = (inl (HTTPException 404 "Comment not found"), w)).
Proof.
  intros w.
  destruct (delete_of_missing_id_is_404_without_write w "p9") as (_ & Hp & _).
  destruct (delete_of_missing_id_is_404_without_write w "c9") as (_ & _ & _ & Hc).
  split; (split; [reflexivity|]); [apply Hp | apply Hc]; reflexivity.
Defined.

Lemma delete_user_does_not_cascade_witness :
  let w := sample_store in
  find_one (has_user_id "u1") (db_users w) = Some sample_user
  /\ exists w',
       delete_user "u1" w = (inr "User deleted successfully", w')
       /\ db_projects w' = db_projects w
       /\ db_tasks w' = db_tasks w
       /\ db_comments w' = db_comments w.
Proof.
  intros w. split; [reflexivity|].
  destruct (delete_user_does_not_cascade w "u1" sample_user eq_refl)
    as (w' & Hrun & _ & Hrest).
  exists w'. split; [exact Hrun | exact Hrest].
Defined.

Lemma create_task_rejects_dangling_references_witness :
  let w := sample_store in
  let orphan := TaskCreate.mk "title" "text" "p9" None (Some MEDIUM) in
  let dangling := TaskCreate.mk "title" "text" "p1" (Some "u9") (Some MEDIUM) in
  (find_one (has_project_id "p9") (db_projects w) = None
   /\ create_task sample_clock sample_uuid4 orphan w
      = (inl (HTTPException 404 "Project not found"), w))
  /\ (find_one (has_project_id "p1") (db_projects w) = Some sample_project
      /\ find_one (has_user_id "u9") (db_users w) = None
      /\ create_task sample_clock sample_uuid4 dangling w
         = (inl (HTTPException 404 "Assigned user not found"), w)).
Proof.
  intros w orphan dangling. split.
  - split; [reflexivity|].
    apply (proj1 (create_task_rejects_dangling_references sample_clock sample_uuid4
                    w orphan)).
    reflexivity.
  - split; [reflexivity|]. split; [reflexivity|].
    apply (proj2 (create_task_rejects_dangling_references sample_clock sample_uuid4
                    w dangling) sample_project "u9");
      [reflexivity | reflexivity | discriminate | reflexivity].
Defined.



Lemma create_comment_checks_task_then_user_witness :
  let w := sample_store in
  (find_one (has_task_id "t9") (db_tasks w) = None
   /\ create_comment sample_clock sample_uuid4 (CommentCreate.mk "t9" "u9" "hello") w
      = (inl (HTTPException 404 "Task not found"), w))
  /\ (find_one (has_task_id "t1") (db_tasks w) = Some finished
      /\ find_one (has_user_id "u9") (db_users w) = None
      /\ create_comment sample_clock sample_uuid4 (CommentCreate.mk "t1" "u9" "hello") w
         = (inl (HTTPException 404 "User not found"), w))
  /\ (find_one (has_user_id "u1") (db_users w) = Some sample_user
      /\ exists w',
           create_comment sample_clock sample_uuid4
             (CommentCreate.mk "t1" "u1" "hello") w
           = (inr (Comment.mk "uuid-0" "t1" "u1" "hello" 1700000000000000), w')
           /\ db_tasks w' = db_tasks w).
Proof.
  intros w. split; [|split].
  - split; [reflexivity|].
    apply (proj1 (create_comment_checks_task_then_user sample_clock sample_uuid4 w
                    (CommentCreate.mk "t9" "u9" "hello"))).
    reflexivity.
  - split; [reflexivity|]. split; [reflexivity|].
    apply (proj1 (proj2 (create_comment_checks_task_then_user sample_clock
                           sample_uuid4 w (CommentCreate.mk "t1" "u9" "hello")))
             finished); reflexivity.
  - split; [reflexivity|].
    destruct (proj2 (proj2 (create_comment_checks_task_then_user sample_clock
                              sample_uuid4 w (CommentCreate.mk "t1" "u1" "hello")))
                finished sample_user eq_refl eq_refl)
      as (w' & Hrun & _ & _ & _ & Htasks).
    exists w'. split; [exact Hrun | exact Htasks].
Defined.

Lemma created_user_can_own_a_project_witness :
  let w := world_of [] in
  let user := User.mk "uuid-0" "Grace" "grace@example.org" "#ff0000" 1700000000000000 in
  let w' := mkWorld [sample_user; user] [sample_project] [] [] 1 1 in
  create_user sample_clock sample_uuid4
    (UserCreate.mk "Grace" "grace@example.org" (Some "#ff0000")) w = (inr user, w')
  /\ exists project w'',
       create_project sample_clock sample_uuid4
         (ProjectCreate.mk "Gamma" "third" "uuid-0") w' = (inr project, w'')
       /\ Project.owner_id project = "uuid-0".
Proof.
  intros w user w'.
  assert (Hrun : create_user sample_clock sample_uuid4
                   (UserCreate.mk "Grace" "grace@example.org" (Some "#ff0000")) w
                 = (inr user, w')) by reflexivity.
  split; [exact Hrun|].
  destruct (created_user_can_own_a_project sample_clock sample_uuid4 w w' _ user
              "Gamma" "third" Hrun) as (project & w'' & Hcreate & Howner & _).
  exists project, w''. split; [exact Hcreate | exact Howner].
Defined.

Lemma task_writes_touch_one_task_only_witness :
  let w := sample_store in
  let w' := snd (update_task_status sample_clock "t1" (TaskStatusUpdate.mk TODO) w) in
  db_users w' = db_users w
  /\ db_comments w' = db_comments w
  /\ map Task.id (db_tasks w') = ["t1"; "t2"]
  /\ nth_error (db_tasks w') 1 = nth_error (db_tasks w) 1.
Proof.
  intros w w'.
  destruct (task_writes_touch_one_task_only sample_clock w "t1"
              (TaskUpdate.mk None None None None None) (TaskStatusUpdate.mk TODO) w'
              (or_intror eq_refl)) as (Hu & _ & Hc & Hids & Hothers).
  split; [exact Hu|]. split; [exact Hc|]. split; [exact Hids|].
  apply (Hothers 1%nat); [reflexivity | discriminate].
Defined.

Lemma task_handlers_keep_completed_at_consistent_witness :
  let w := sample_store in
  let w' := snd (update_task sample_clock "t1"
                   (TaskUpdate.mk None None None (Some IN_REVIEW) None) w) in
  Forall (fun t => completion_consistent t = true) (db_tasks w)
  /\ Forall (fun t => completion_consistent t = true) (db_tasks w').
Proof.
  intros w w'.
  assert (Hinv : Forall (fun t => completion_consistent t = true) (db_tasks w)).
  { repeat constructor. }
  split; [exact Hinv|].
  apply (task_handlers_keep_completed_at_consistent sample_clock sample_uuid4 w w'
           "t1" (TaskCreate.mk "title" "text" "p1" None None)
           (TaskUpdate.mk None None None (Some IN_REVIEW) None)
           (TaskStatusUpdate.mk TODO) Hinv).
  right. left. reflexivity.
Defined.

Lemma last_status_write_wins_witness :
  let w := world_of [sample_task "t1" TODO (Some 0) None] in
  let w1 := snd (update_task_status sample_clock "t1" (TaskStatusUpdate.mk DONE) w) in
  find_one (has_task_id "t1") (db_tasks w) = Some (sample_task "t1" TODO (Some 0) None)
  /\ find_one (has_task_id "t1") (db_tasks w1)
     = Some (Task.mk "t1" "title" "text" "p1" (Some "u1") DONE MEDIUM (Some 0)
               1700000000000000 (Some 1700000000000001))
  /\ exists task2 w2,
       update_task_status sample_clock "t1" (TaskStatusUpdate.mk IN_PROGRESS) w1
       = (inr task2, w2)
       /\ find_one (has_task_id "t1") (db_tasks w2) = Some task2
       /\ Task.status task2 = IN_PROGRESS
       /\ Task.completed_at task2 = None.
Proof.
  intros w w1. split; [reflexivity|]. split; [reflexivity|].
  destruct (last_status_write_wins sample_clock w "t1" _ DONE IN_PROGRESS eq_refl)
    as (task2 & w2 & Hrun & Hfind & Hs & Hc & _).
  exists task2, w2. repeat split; assumption.
Defined.

Lemma listings_are_empty_after_a_cascade_witness :
  let w := sample_store in
  let w' := snd (delete_project "p1" w) in
  "p1" <> ""
  /\ delete_project "p1" w = (inr "Project deleted successfully", w')
  /\ get_tasks (Some "p1") None (Some DONE) w' = (inr [], w')
  /\ get_tasks None None None w'
     = (inr [Task.mk "t2" "other" "text" "p2" None TODO LOW (Some 5) 31 None], w').
Proof.
  intros w w'.
  assert (Hid : "p1" <> "") by discriminate.
  assert (Hrun : delete_project "p1" w = (inr "Project deleted successfully", w'))
    by reflexivity.
  split; [exact Hid|]. split; [exact Hrun|]. split; [|reflexivity].
  exact (proj1 (listings_are_empty_after_a_cascade w w' "p1" _ Hid) Hrun
           None (Some DONE)).
Defined.



Lemma project_average_is_not_negative_witness :
  let w := world_of [sample_task "t1" DONE (Some 0) (Some (3 * day))] in
  let m := ProjectMetrics.mk 1 1 0 0 (Some (round (inject_Z 3) 2))
             (round (inject_Z 100) 2) in
  fst (get_project_metrics "p1" w) = inr m
  /\ (0 <= round (inject_Z 3) 2)%Q.
Proof.
  intros w m.
  assert (Hrun : fst (get_project_metrics "p1" w) = inr m) by reflexivity.
  split; [exact Hrun|].
  apply (project_average_is_not_negative "p1" w m (round (inject_Z 3) 2));
    [|exact Hrun | reflexivity].
  intros t created completed [<- | []] [= <-] [= <-]. unfold day. lia.
Defined.


Lemma non_empty_update_stamps_updated_at_witness :
  let w := sample_store in
  find_one (has_project_id "p1") (db_projects w) = Some sample_project
  /\ ProjectUpdate.mk (Some "Alpha") None <> ProjectUpdate.mk None None
  /\ exists project' w',
       update_project sample_clock "p1" (ProjectUpdate.mk (Some "Alpha") None) w
       = (inr project', w')
       /\ Project.name project' = Project.name sample_project
       /\ Project.updated_at sample_project = 20
       /\ Project.updated_at project' = 1700000000000000.
Proof.
  intros w. split; [reflexivity|].
  assert (Hne : ProjectUpdate.mk (Some "Alpha") None <> ProjectUpdate.mk None None)
    by discriminate.
  split; [exact Hne|].
  destruct (proj1 (non_empty_update_stamps_updated_at sample_clock w "p1")
              sample_project (ProjectUpdate.mk (Some "Alpha") None) eq_refl Hne)
    as (project' & w' & Hrun & _ & Hstamp).
  exists project', w'. split; [exact Hrun|].
  split; [|split; [reflexivity | exact Hstamp]].
  injection Hrun as <- _. reflexivity.
Defined.
